(** * TrendRadar report module ([trendradar/report/html.py])

    A shallow embedding of [render_html_content] (the Python composition of
    the report page) and of the segmentation pass of the embedded script
    [saveAsMultipleImages], followed by the properties proved about them. *)

From Stdlib Require Import ZArith List Bool String Ascii Lia.
From Stdlib Require Import Numbers.DecimalString.
From Stdlib Require Numbers.DecimalZ Numbers.DecimalPos.
Import ListNotations.

Local Open Scope Z_scope.

(* ===================================================================== *)
(** * Part I. Definitions                                                 *)
(* ===================================================================== *)

(* --------------------------------------------------------------------- *)
(** ** The segmentation pass of [saveAsMultipleImages]                    *)
(* --------------------------------------------------------------------- *)

(** Lengths and offsets are the numbers the layout engine reports, taken
    here in whole layout units. *)

Inductive ElementType : Type :=
| header_t | error_t | word_header_t | news_item_t | new_section_t | footer_t.

(** One entry of the script's [elements] array. *)
Record Element : Type := mkElement
  { el_type : ElementType;
    el_top : Z;
    el_bottom : Z;
    el_height : Z }.

(** One entry of the script's [segments] array. *)
Record Segment : Type := mkSegment
  { seg_start : Z;
    seg_end : Z;
    seg_height : Z;
    seg_includeHeader : bool }.

(** What [getBoundingClientRect()] returns, as far as the script reads it. *)
Record Rect : Type := mkRect
  { rect_top : Z;
    rect_bottom : Z;
    rect_height : Z }.

(** A [.word-group] node: its own rectangle, its [.word-header] child when
    there is one, and its [.news-item] descendants in document order. *)
Record WordGroup : Type := mkWordGroup
  { groupRect : Rect;
    wordHeader : option Rect;
    groupNewsItems : list Rect }.

(** The measurements the script takes from the page. *)
Record Measured : Type := mkMeasured
  { header_offsetHeight : Z;
    containerRect : Rect;
    errorSection : option Rect;
    wordGroups : list WordGroup;
    newSection : option Rect;
    footerRect : Rect;
    footer_offsetHeight : Z;
    container_offsetHeight : Z }.

Definition headerElement (m : Measured) : Element :=
  mkElement header_t 0 (header_offsetHeight m) (header_offsetHeight m).

Definition rectElement (t : ElementType) (containerTop : Z) (rect : Rect)
  : Element :=
  mkElement t (rect_top rect - containerTop) (rect_bottom rect - containerTop)
            (rect_height rect).

Definition errorElements (m : Measured) : list Element :=
  match errorSection m with
  | Some rect => [rectElement error_t (rect_top (containerRect m)) rect]
  | None => []
  end.

(** The body of [wordGroups.forEach]: the group's header part, then each of
    its news items. *)
Definition wordGroupElements (containerTop : Z) (group : WordGroup)
  : list Element :=
  (match wordHeader group with
   | Some headerRect =>
       [mkElement word_header_t
                  (rect_top (groupRect group) - containerTop)
                  (rect_bottom headerRect - containerTop)
                  (rect_height headerRect)]
   | None => []
   end)
  ++ map (rectElement news_item_t containerTop) (groupNewsItems group).

Definition newSectionElements (m : Measured) : list Element :=
  match newSection m with
  | Some rect => [rectElement new_section_t (rect_top (containerRect m)) rect]
  | None => []
  end.

Definition footerElement (m : Measured) : Element :=
  mkElement footer_t
            (rect_top (footerRect m) - rect_top (containerRect m))
            (rect_bottom (footerRect m) - rect_top (containerRect m))
            (footer_offsetHeight m).

(** The [elements] array, in the order the script pushes its entries. *)
Definition collectElements (m : Measured) : list Element :=
  headerElement m
  :: errorElements m
  ++ flat_map (wordGroupElements (rect_top (containerRect m))) (wordGroups m)
  ++ newSectionElements m
  ++ [footerElement m].

(** One turn of [for (let i = 1; i < elements.length; i++)]: [previous] is
    [elements[i - 1]], [element] is [elements[i]]; the state is the pair of
    [currentSegment] and [segments]. *)
Definition segmentStep (maxHeight headerHeight : Z) (previous element : Element)
  (state : Segment * list Segment) : Segment * list Segment :=
  let '(currentSegment, segments) := state in
  let potentialHeight := el_bottom element - seg_start currentSegment in
  if (potentialHeight >? maxHeight) && (seg_height currentSegment >? headerHeight)
  then
    let closed := mkSegment (seg_start currentSegment) (el_bottom previous)
                            (seg_height currentSegment)
                            (seg_includeHeader currentSegment) in
    (mkSegment (seg_end closed) 0 (el_bottom element - seg_end closed) false,
     segments ++ [closed])
  else
    (mkSegment (seg_start currentSegment) (el_bottom element) potentialHeight
               (seg_includeHeader currentSegment),
     segments).

Fixpoint segmentLoop (maxHeight headerHeight : Z) (previous : Element)
  (rest : list Element) (state : Segment * list Segment)
  : Segment * list Segment :=
  match rest with
  | [] => state
  | element :: rest' =>
      segmentLoop maxHeight headerHeight element rest'
                  (segmentStep maxHeight headerHeight previous element state)
  end.

(** The closing [if (currentSegment.height > 0)]. *)
Definition closeLast (offsetHeight : Z) (state : Segment * list Segment)
  : list Segment :=
  let '(currentSegment, segments) := state in
  if seg_height currentSegment >? 0
  then segments ++ [mkSegment (seg_start currentSegment) offsetHeight
                              (seg_height currentSegment)
                              (seg_includeHeader currentSegment)]
  else segments.

(** The whole computation of [segments] from [elements], the header height,
    the budget [maxHeight] and [container.offsetHeight]. *)
Definition computeSegments (elements : list Element)
  (headerHeight maxHeight offsetHeight : Z) : list Segment :=
  match elements with
  | [] => []
  | first :: rest =>
      closeLast offsetHeight
        (segmentLoop maxHeight headerHeight first rest
                     (mkSegment 0 0 headerHeight true, []))
  end.

Definition segmentsOf (m : Measured) (maxHeight : Z) : list Segment :=
  computeSegments (collectElements m) (header_offsetHeight m) maxHeight
                  (container_offsetHeight m).

(** *** Vocabulary for the segmentation properties *)

(** Blocks laid out one under the other from offset [y] on: each starts at
    or below the bottom edge of the one before and has [top <= bottom]. *)
Fixpoint stacked (y : Z) (elements : list Element) : Prop :=
  match elements with
  | [] => True
  | e :: rest => y <= el_top e /\ el_top e <= el_bottom e
                 /\ stacked (el_bottom e) rest
  end.

(** [tiles a segments b]: the segments are contiguous, each starts where
    the one before ends, each is non-empty, the first starts at [a] and the
    last ends at [b]. *)
Fixpoint tiles (a : Z) (segments : list Segment) (b : Z) : Prop :=
  match segments with
  | [] => a = b
  | s :: rest => seg_start s = a /\ seg_start s < seg_end s
                 /\ tiles (seg_end s) rest b
  end.

(** Offset [y] lies strictly inside the block. *)
Definition cuts (y : Z) (e : Element) : Prop := el_top e < y < el_bottom e.

(** What holds of [currentSegment] and [segments] before each turn of the
    loop, [previous] being the element handled last; [safe] is the property
    wanted of every segment boundary. *)
Definition loopInv (safe : Z -> Prop) (previous : Element)
  (state : Segment * list Segment) : Prop :=
  let '(currentSegment, segments) := state in
  seg_height currentSegment = el_bottom previous - seg_start currentSegment
  /\ seg_start currentSegment <= el_bottom previous
  /\ tiles 0 segments (seg_start currentSegment)
  /\ safe (seg_start currentSegment)
  /\ Forall (fun s => safe (seg_start s) /\ safe (seg_end s)) segments.

(** [currentSegment] as it stands when the loop, started on the header,
    has handled the blocks [before] and reaches the block after them. *)
Definition runningSegment (maxHeight headerHeight : Z) (before : list Element)
  : Segment :=
  fst (segmentLoop maxHeight headerHeight
                   (mkElement header_t 0 headerHeight headerHeight) before
                   (mkSegment 0 0 headerHeight true, [])).

(** The block has no part in the segment: it ends at or above the start of
    the segment, or starts at or below its end. *)
Definition outside (e : Element) (s : Segment) : Prop :=
  el_bottom e <= seg_start s \/ seg_end s <= el_top e.

(** The running example: a header, one news item and the footer. *)
Definition pageWithOneItem (headerHeight itemHeight footerHeight : Z)
  : list Element :=
  [ mkElement header_t 0 headerHeight headerHeight;
    mkElement news_item_t headerHeight (headerHeight + itemHeight) itemHeight;
    mkElement footer_t (headerHeight + itemHeight)
              (headerHeight + itemHeight + footerHeight) footerHeight ].


(** Every block ends at most [step] below the bottom edge of the block
    before it; [y] is the bottom edge reached so far. *)
Fixpoint steps_at_most (step : Z) (y : Z) (elements : list Element) : Prop :=
  match elements with
  | [] => True
  | e :: rest => el_bottom e - y <= step /\ steps_at_most step (el_bottom e) rest
  end.

(** A small measured page: the container starts 10 units below the top of
    the viewport; a header of 150, one keyword group with its header and two
    news items, and a footer of 100. *)
Definition sampleMeasured : Measured :=
  mkMeasured 150 (mkRect 10 660 650) None
             [mkWordGroup (mkRect 160 560 400) (Some (mkRect 160 200 40))
                          [mkRect 200 380 180; mkRect 380 560 180]]
             None (mkRect 560 660 100) 100 650.

(** A measured page on which the new-titles section stands above the
    keyword group, as it does when the region order lists it first: the
    script still collects it after the group. *)
Definition sampleMeasuredNewFirst : Measured :=
  mkMeasured 150 (mkRect 0 3600 3600) None
             [mkWordGroup (mkRect 3000 3500 500) (Some (mkRect 3000 3040 40))
                          [mkRect 3040 3300 260; mkRect 3300 3500 200]]
             (Some (mkRect 150 3000 2850)) (mkRect 3500 3600 100) 100 3600.

(* --------------------------------------------------------------------- *)
(** ** Python strings and values                                          *)
(* --------------------------------------------------------------------- *)

Open Scope string_scope.

(** A string is the sequence of the bytes of its UTF-8 encoding.  Searching
    for an ASCII text and cutting at the position found give the same
    result on bytes as on the characters Python counts. *)

(** Templates below are written with an apostrophe wherever the Python
    source has a double quote; [dq] puts the double quotes back.  None of the
    templates of the source contains an apostrophe of its own. *)
Definition dquote : ascii := ascii_of_nat 34.

Fixpoint dq (s : string) : string :=
  match s with
  | EmptyString => EmptyString
  | String c rest => String (if Ascii.eqb c "'" then dquote else c) (dq rest)
  end.

Fixpoint spaces (n : nat) : string :=
  match n with
  | O => EmptyString
  | S k => String " " (spaces k)
  end.

(** A line break followed by [n] spaces of indentation. *)
Definition nl (n : nat) : string := String (ascii_of_nat 10) (spaces n).

(** [str(i)] for an integer. *)
Definition str (i : Z) : string := NilZero.string_of_int (Z.to_int i).

(** Truth value of a string, of a list and of an optional object. *)
Definition truthy (s : string) : bool := negb (s =? EmptyString).

Definition nonempty {A : Type} (l : list A) : bool :=
  match l with
  | nil => false
  | _ => true
  end.

(** [s.find(sub)]: index of the first occurrence, [None] for Python's -1. *)
Fixpoint find (sub s : string) : option nat :=
  if prefix sub s then Some O
  else match s with
       | EmptyString => None
       | String _ rest => option_map S (find sub rest)
       end.

(** [sub in s]. *)
Definition contains (sub s : string) : bool :=
  match find sub s with
  | Some _ => true
  | None => false
  end.

(** [s[:n]] and [s[n:]]. *)
Fixpoint take (n : nat) (s : string) : string :=
  match n, s with
  | S k, String c rest => String c (take k rest)
  | _, _ => EmptyString
  end.

Fixpoint drop (n : nat) (s : string) : string :=
  match n, s with
  | S k, String _ rest => drop k rest
  | _, _ => s
  end.

(** [s.replace(old, new)] for a non-empty [old]: occurrences are replaced
    from left to right without overlap; [skip] counts the characters of a
    matched occurrence still to be dropped. *)
Fixpoint replace_from (old new : string) (skip : nat) (s : string) : string :=
  match s with
  | EmptyString => EmptyString
  | String c rest =>
      match skip with
      | S k => replace_from old new k rest
      | O => if prefix old s
             then new ++ replace_from old new (String.length old - 1) rest
             else String c (replace_from old new O rest)
      end
  end.

Definition replace (old new s : string) : string := replace_from old new O s.

(** [min(l)] and [max(l)] of a non-empty list of integers. *)
Definition list_min (l : list Z) : Z :=
  match l with
  | nil => 0
  | x :: rest => fold_left Z.min rest x
  end.

Definition list_max (l : list Z) : Z :=
  match l with
  | nil => 0
  | x :: rest => fold_left Z.max rest x
  end.

(** [enumerate(l, start)]. *)
Fixpoint enumerate {A : Type} (start : Z) (l : list A) : list (Z * A) :=
  match l with
  | nil => nil
  | x :: rest => (start, x) :: enumerate (start + 1) rest
  end.

(** A [datetime] value and [strftime("%m-%d %H:%M")]. *)
Record datetime : Type := mkDatetime
  { year : Z; month : Z; day : Z; hour : Z; minute : Z; second : Z }.

Definition two_digits (i : Z) : string :=
  if (i <? 10)%Z then "0" ++ str i else str i.

Definition strftime_md_HM (t : datetime) : string :=
  two_digits (month t) ++ "-" ++ two_digits (day t) ++ " "
  ++ two_digits (hour t) ++ ":" ++ two_digits (minute t).

(** *** Exceptions *)

Inductive exn : Type :=
| KeyError (key : string).

Inductive result (A : Type) : Type :=
| Ok (a : A)
| Raise (e : exn).

Arguments Ok {A} a.
Arguments Raise {A} e.

Definition bind {A B : Type} (c : result A) (k : A -> result B) : result B :=
  match c with
  | Ok a => k a
  | Raise e => Raise e
  end.

Notation "x <- c ;; k" := (bind c (fun x => k))
  (at level 61, c at next level, right associativity).

(** [d[key]] and [d.get(key, default)] on an optional entry of a dict. *)
Definition subscript {A : Type} (key : string) (entry : option A) : result A :=
  match entry with
  | Some a => Ok a
  | None => Raise (KeyError key)
  end.

Definition get {A : Type} (entry : option A) (default : A) : A :=
  match entry with
  | Some a => a
  | None => default
  end.

(** [a or b] on two optional strings read with [get]: the first one when
    it is truthy, else the second. *)
Definition or_else (a b : string) : string := if truthy a then a else b.

(** A loop [for x in l: out += body(x)]: the pieces are appended in order
    and the first exception aborts the loop. *)
Fixpoint for_each {A : Type} (body : A -> result string) (l : list A)
  (out : string) : result string :=
  match l with
  | nil => Ok out
  | x :: rest => piece <- body x ;; for_each body rest (out ++ piece)
  end.

(* --------------------------------------------------------------------- *)
(** ** The records [render_html_content] reads                            *)
(* --------------------------------------------------------------------- *)

(** A title, feed item or platform item: a dict, each of whose keys may be
    absent. *)
Record Item : Type := mkItem
  { title : option string;
    url : option string;
    mobile_url : option string;
    mobileUrl : option string;
    source_name : option string;
    matched_keyword : option string;
    ranks : option (list Z);
    rank : option Z;
    rank_threshold : option Z;
    time_display : option string;
    first_time : option string;
    last_time : option string;
    count : option Z;
    is_new : option bool;
    published_at : option string;
    author : option string }.

(** An entry of [stats], [rss_items] or [rss_new_items]. *)
Record Stat : Type := mkStat
  { stat_word : option string;
    stat_count : option Z;
    stat_titles : option (list Item) }.

(** An entry of [new_titles]. *)
Record SourceData : Type := mkSourceData
  { src_source_name : option string;
    src_titles : option (list Item) }.

(** An entry of [platforms] or [rss_feeds]. *)
Record Group : Type := mkGroup
  { group_id : option string;
    group_name : option string;
    group_items : option (list Item) }.

Record StandaloneData : Type := mkStandaloneData
  { platforms : option (list Group);
    rss_feeds : option (list Group) }.

(** [report_data], with the four keys its docstring lists. *)
Record ReportData : Type := mkReportData
  { stats : list Stat;
    new_titles : list SourceData;
    failed_ids : list string;
    total_new_count : Z }.

Record UpdateInfo : Type := mkUpdateInfo
  { remote_version : string;
    current_version : string }.

(** The state of the machine the call runs on, as far as the function reads
    it: what [datetime.now()] returns. *)
Record World : Type := mkWorld
  { wall_clock : datetime }.

(** The contents prepared for each region; [new_items] holds a pair. *)
Record RegionContents : Type := mkRegionContents
  { hotlist : string;
    rss : string;
    new_items : string * string;
    standalone : string;
    ai_analysis_html : string }.

Inductive RegionContent : Type :=
| Single (content : string)
| Two (new_html rss_new : string).

(** The lookup [region_contents.get] with the empty string as default. *)
Definition region_contents_get (region_contents : RegionContents)
  (region : string) : RegionContent :=
  if region =? "hotlist" then Single (hotlist region_contents)
  else if region =? "rss" then Single (rss region_contents)
  else if region =? "new_items"
       then Two (fst (new_items region_contents))
                (snd (new_items region_contents))
  else if region =? "standalone" then Single (standalone region_contents)
  else if region =? "ai_analysis" then Single (ai_analysis_html region_contents)
  else Single EmptyString.

Definition default_region_order : list string :=
  ["hotlist"; "rss"; "new_items"; "standalone"; "ai_analysis"]%list.

(* --------------------------------------------------------------------- *)
(** ** Stand-ins for the collaborators                                    *)
(* --------------------------------------------------------------------- *)

(** The renderer calls helpers of other modules.  The definitions below are
    simple stand-ins for them, used only to run the renderer on concrete
    inputs in the examples; every general statement is proved for arbitrary
    helpers. *)

Definition example_html_escape (text : string) : string :=
  replace "'" "&#x27;"
    (replace (String dquote EmptyString) "&quot;"
       (replace ">" "&gt;" (replace "<" "&lt;" (replace "&" "&amp;" text)))).

Definition example_convert_time (time : string) : string :=
  replace "-" ":" time.

Definition example_ai_block (analysis : string) : string :=
  if truthy analysis
  then nl 16 ++ dq "<div class='ai-section'>" ++ analysis ++ nl 16 ++ "</div>"
  else EmptyString.

Definition digit_value (c : ascii) : option Z :=
  let n := nat_of_ascii c in
  if (48 <=? n)%nat && (n <=? 57)%nat then Some (Z.of_nat (n - 48)) else None.

Fixpoint number_from (acc : Z) (s : string) : option Z :=
  match s with
  | EmptyString => Some acc
  | String c rest =>
      match digit_value c with
      | Some d => number_from (10 * acc + d)%Z rest
      | None => None
      end
  end.

(** Accepts exactly the shape [YYYY-MM-DDTHH:MM:SS]. *)
Definition example_fromisoformat (s : string) : option datetime :=
  if (String.length s =? 19)%nat
     && (substring 4 1 s =? "-") && (substring 7 1 s =? "-")
     && (substring 10 1 s =? "T")
     && (substring 13 1 s =? ":") && (substring 16 1 s =? ":")
  then match number_from 0 (substring 0 4 s), number_from 0 (substring 5 2 s),
             number_from 0 (substring 8 2 s), number_from 0 (substring 11 2 s),
             number_from 0 (substring 14 2 s), number_from 0 (substring 17 2 s)
       with
       | Some y, Some mo, Some d, Some h, Some mi, Some sec =>
           Some (mkDatetime y mo d h mi sec)
       | _, _, _, _, _, _ => None
       end
  else None.

(** Sample records. *)
Definition item_with_ranks (the_ranks : list Z) (threshold : Z) : Item :=
  mkItem (Some "Headline") (Some "https://example.org/a") None None
         (Some "Source") None (Some the_ranks) None (Some threshold) None None
         None None None None None.

Definition item_with_times (first last : option string) : Item :=
  mkItem (Some "Headline") None None None None None None None None None
         first last None None None None.

Definition item_with_links (the_url the_mobile_url the_mobileUrl : option string)
  : Item :=
  mkItem (Some "Headline") the_url the_mobile_url the_mobileUrl (Some "Source")
         None None None None None None None None None None None.

Definition item_published (published : string) : Item :=
  mkItem (Some "Headline") None None None None None None None None None None
         None None None (Some published) None.

Definition untitled_item : Item :=
  mkItem None (Some "https://example.org/a") None None (Some "Source") None
         None None None None None None None None None None.

Definition unsourced_item : Item :=
  mkItem (Some "Headline") None None None None None None None None None None
         None None None None None.

Definition report_of (titles : list Item) : ReportData :=
  mkReportData [mkStat (Some "keyword") (Some 1%Z) (Some titles)]%list nil nil 0.

Definition world_at (h mi : Z) : World := mkWorld (mkDatetime 2025 1 7 h mi 0).

(** A report whose only content is one source of new titles. *)
Definition new_titles_of (titles : list Item) : ReportData :=
  mkReportData nil [mkSourceData (Some "Source") (Some titles)]%list nil
               (Z.of_nat (List.length titles)).

(** A report with no hot-list content at all. *)
Definition empty_report : ReportData := mkReportData nil nil nil 0.

(** One feed of [rss_items] holding the given records. *)
Definition feed_of (titles : list Item) : Stat :=
  mkStat (Some "Feed") (Some (Z.of_nat (List.length titles))) (Some titles).

(** Standalone data with one platform and one feed, both holding the given
    records. *)
Definition standalone_of (items : list Item) : StandaloneData :=
  mkStandaloneData
    (Some [mkGroup (Some "platform") (Some "Platform") (Some items)]%list)
    (Some [mkGroup (Some "feed") (Some "Feed") (Some items)]%list).

(* --------------------------------------------------------------------- *)
(** ** The export loop of [saveAsMultipleImages]                          *)
(* --------------------------------------------------------------------- *)

(** What the script reads of [new Date()]; [getMonth] counts from 0. *)
Record JsDate : Type := mkJsDate
  { getFullYear : Z;
    getMonth : Z;
    getDate : Z;
    getHours : Z;
    getMinutes : Z }.

Fixpoint repeat_char (c : ascii) (n : nat) : string :=
  match n with
  | O => EmptyString
  | S k => String c (repeat_char c k)
  end.

(** [s.padStart(n, c)] for a one-character filler. *)
Definition padStart (n : nat) (c : ascii) (s : string) : string :=
  repeat_char c (n - String.length s) ++ s.

Definition baseFilename (now : JsDate) : string :=
  "TrendRadar_熱點新聞分析_" ++ str (getFullYear now)
  ++ padStart 2 "0" (str (getMonth now + 1))
  ++ padStart 2 "0" (str (getDate now))
  ++ "_" ++ padStart 2 "0" (str (getHours now))
  ++ padStart 2 "0" (str (getMinutes now)).

Section ExportLoop.

(** The data URL of a captured canvas, and the capture itself, given the
    offset [y] and the [height] of the window; [None] when the capture
    throws. *)
Variable Image : Type.
Variable html2canvas : Z -> Z -> option Image.

(** The loop that fills [images]: one capture per segment, in order; the
    first capture that throws ends the loop. *)
Fixpoint captureSegments (segments : list Segment) : option (list Image) :=
  match segments with
  | nil => Some nil
  | segment :: rest =>
      match html2canvas (seg_start segment)
                        (seg_end segment - seg_start segment)%Z with
      | Some image =>
          match captureSegments rest with
          | Some images => Some (image :: images)
          | None => None
          end
      | None => None
      end
  end.

(** The files offered for download, in order, and the final text of the
    button. *)
Record ExportOutcome : Type := mkExportOutcome
  { downloads : list (string * Image);
    buttonText : string }.

(** The loop over [images] that names and downloads each file. *)
Definition partDownloads (base : string) (images : list Image)
  : list (string * Image) :=
  map (fun entry : Z * Image =>
         (base ++ "_part" ++ str (fst entry + 1) ++ ".png", snd entry))
      (enumerate 0 images).

(** The body of the [try] once the page is measured, and its [catch].  The
    script fixes [maxHeight] to 5000 / 1.5; it is a parameter here. *)
Definition saveAsMultipleImages (m : Measured) (maxHeight : Z) (now : JsDate)
  : ExportOutcome :=
  let segments := segmentsOf m maxHeight in
  match captureSegments segments with
  | Some images =>
      mkExportOutcome
        (partDownloads (baseFilename now) images)
        ("已保存 " ++ str (Z.of_nat (List.length segments)) ++ " 張圖片!")
  | None => mkExportOutcome nil "保存失敗"
  end.

End ExportLoop.

(** A capture that succeeds for the windows that start above offset
    [limit] and throws for the others. *)
Definition capture_above (limit : Z) (y height : Z) : option (Z * Z) :=
  if (y <? limit)%Z then Some (y, height) else None.

(* --------------------------------------------------------------------- *)
(** ** [render_html_content]                                              *)
(* --------------------------------------------------------------------- *)

Section Rendering.

Local Set Default Proof Using "Type".

(** Collaborators that live in other modules of the package, or in the
    Python library. *)

(** [trendradar.report.helpers.html_escape] *)
Variable html_escape : string -> string.

(** [trendradar.utils.time.convert_time_for_display] *)
Variable convert_time_for_display : string -> string.

(** [trendradar.ai.formatter.render_ai_analysis_html_rich] and the result
    object it formats. *)
Variable AIAnalysisResult : Type.
Variable render_ai_analysis_html_rich : AIAnalysisResult -> string.

(** [datetime.fromisoformat]; [None] when it raises. *)
Variable fromisoformat : string -> option datetime.

(** The fixed text that opens the page (document head, style sheet, header
    markup up to the report-type value) and the fixed text that closes it
    (the script and the closing tags). *)
Variable page_head : string.
Variable page_script : string.

(** *** Rank badge, time and count of a hot-list title (keyword groups) *)

Definition hotlist_rank_class (title_data : Item) : string :=
  let min_rank := list_min (get (ranks title_data) nil) in
  let threshold := get (rank_threshold title_data) 10%Z in
  if (min_rank <=? 3)%Z then "top"
  else if (min_rank <=? threshold)%Z then "high"
  else EmptyString.

Definition hotlist_rank_text (title_data : Item) : string :=
  let min_rank := list_min (get (ranks title_data) nil) in
  let max_rank := list_max (get (ranks title_data) nil) in
  if (min_rank =? max_rank)%Z then str min_rank
  else str min_rank ++ "-" ++ str max_rank.

Definition hotlist_rank_badge (title_data : Item) : string :=
  if nonempty (get (ranks title_data) nil)
  then dq "<span class='rank-num " ++ hotlist_rank_class title_data ++ dq "'>"
       ++ hotlist_rank_text title_data ++ "</span>"
  else EmptyString.

Definition hotlist_time_info (title_data : Item) : string :=
  let time := get (time_display title_data) EmptyString in
  if truthy time
  then let simplified_time :=
         replace "]" EmptyString (replace "[" EmptyString (replace " ~ " "~" time)) in
       dq "<span class='time-info'>" ++ html_escape simplified_time ++ "</span>"
  else EmptyString.

Definition count_info_badge (item : Item) : string :=
  let count_info := get (count item) 1%Z in
  if (count_info >? 1)%Z
  then dq "<span class='count-info'>" ++ str count_info ++ "次</span>"
  else EmptyString.

(** The anchor written around a title that has a link. *)
Definition anchor (link_class escaped_url escaped_title : string) : string :=
  dq "<a href='" ++ escaped_url ++ dq "' target='_blank' class='" ++ link_class
  ++ dq "'>" ++ escaped_title ++ "</a>".

(** The link of a title: [mobile_url] when it is set and not empty,
    otherwise [url], otherwise the empty string. *)
Definition title_link_url (title_data : Item) : string :=
  or_else (get (mobile_url title_data) EmptyString) (get (url title_data) EmptyString).

Definition title_markup (title_data : Item) (escaped_title : string) : string :=
  let link_url := title_link_url title_data in
  if truthy link_url
  then anchor "news-link" (html_escape link_url) escaped_title
  else escaped_title.

(** The source name (keyword mode) or the keyword tag (platform mode). *)
Definition source_or_keyword (display_mode : string) (title_data : Item)
  : result string :=
  if display_mode =? "keyword"
  then source <- subscript "source_name" (source_name title_data) ;;
       Ok (dq "<span class='source-name'>" ++ html_escape source ++ "</span>")
  else let keyword := get (matched_keyword title_data) EmptyString in
       Ok (if truthy keyword
           then dq "<span class='keyword-tag'>[" ++ html_escape keyword
                ++ "]</span>"
           else EmptyString).

(** One turn of the loop over [stat["titles"]]. *)
Definition render_news_item (display_mode : string) (entry : Z * Item)
  : result string :=
  let '(j, title_data) := entry in
  let new_class := if get (is_new title_data) false then "new" else EmptyString in
  source <- source_or_keyword display_mode title_data ;;
  the_title <- subscript "title" (title title_data) ;;
  Ok (nl 20 ++ dq "<div class='news-item " ++ new_class ++ dq "'>"
      ++ nl 24 ++ dq "<div class='news-number'>" ++ str j ++ "</div>"
      ++ nl 24 ++ dq "<div class='news-content'>"
      ++ nl 28 ++ dq "<div class='news-header'>"
      ++ source
      ++ hotlist_rank_badge title_data
      ++ hotlist_time_info title_data
      ++ count_info_badge title_data
      ++ nl 28 ++ "</div>"
      ++ nl 28 ++ dq "<div class='news-title'>"
      ++ title_markup title_data (html_escape the_title)
      ++ nl 28 ++ "</div>"
      ++ nl 24 ++ "</div>"
      ++ nl 20 ++ "</div>").

Definition count_class_of (count : Z) : string :=
  if (count >=? 10)%Z then "hot"
  else if (count >=? 5)%Z then "warm"
  else EmptyString.

(** One turn of the loop over [report_data["stats"]]. *)
Definition render_word_group (display_mode : string) (total_count : Z)
  (entry : Z * Stat) : result string :=
  let '(i, stat) := entry in
  count <- subscript "count" (stat_count stat) ;;
  word <- subscript "word" (stat_word stat) ;;
  titles <- subscript "titles" (stat_titles stat) ;;
  group <- for_each (render_news_item display_mode) (enumerate 1 titles)
             (nl 16 ++ dq "<div class='word-group'>"
              ++ nl 20 ++ dq "<div class='word-header'>"
              ++ nl 24 ++ dq "<div class='word-info'>"
              ++ nl 28 ++ dq "<div class='word-name'>" ++ html_escape word
              ++ "</div>"
              ++ nl 28 ++ dq "<div class='word-count " ++ count_class_of count
              ++ dq "'>" ++ str count ++ " 條</div>"
              ++ nl 24 ++ "</div>"
              ++ nl 24 ++ dq "<div class='word-index'>" ++ str i ++ "/"
              ++ str total_count ++ "</div>"
              ++ nl 20 ++ "</div>") ;;
  Ok (group ++ nl 16 ++ "</div>").

(** [stats_html], wrapper included. *)
Definition render_stats_html (display_mode : string) (stats : list Stat)
  : result string :=
  stats_html <- for_each (render_word_group display_mode
                            (Z.of_nat (List.length stats)))
                         (enumerate 1 stats) EmptyString ;;
  Ok (if truthy stats_html
      then nl 16 ++ dq "<div class='hotlist-section'>" ++ stats_html
           ++ nl 16 ++ "</div>"
      else EmptyString).

(** *** The new-titles section *)

Definition new_item_rank_class (title_data : Item) : string :=
  let the_ranks := get (ranks title_data) nil in
  if nonempty the_ranks
  then let min_rank := list_min the_ranks in
       if (min_rank <=? 3)%Z then "top"
       else if (min_rank <=? get (rank_threshold title_data) 10%Z)%Z then "high"
       else EmptyString
  else EmptyString.

Definition new_item_rank_text (title_data : Item) : string :=
  let the_ranks := get (ranks title_data) nil in
  if nonempty the_ranks
  then if (List.length the_ranks =? 1)%nat
       then str (hd 0%Z the_ranks)
       else str (list_min the_ranks) ++ "-" ++ str (list_max the_ranks)
  else "?".

(** One turn of the loop over [source_data["titles"]]. *)
Definition render_new_item (entry : Z * Item) : result string :=
  let '(idx, title_data) := entry in
  the_title <- subscript "title" (title title_data) ;;
  Ok (nl 24 ++ dq "<div class='new-item'>"
      ++ nl 28 ++ dq "<div class='new-item-number'>" ++ str idx ++ "</div>"
      ++ nl 28 ++ dq "<div class='new-item-rank "
      ++ new_item_rank_class title_data ++ dq "'>"
      ++ new_item_rank_text title_data ++ "</div>"
      ++ nl 28 ++ dq "<div class='new-item-content'>"
      ++ nl 32 ++ dq "<div class='new-item-title'>"
      ++ title_markup title_data (html_escape the_title)
      ++ nl 32 ++ "</div>"
      ++ nl 28 ++ "</div>"
      ++ nl 24 ++ "</div>").

(** One turn of the loop over [report_data["new_titles"]]. *)
Definition render_new_source_group (source_data : SourceData) : result string :=
  source <- subscript "source_name" (src_source_name source_data) ;;
  titles <- subscript "titles" (src_titles source_data) ;;
  group <- for_each render_new_item (enumerate 1 titles)
             (nl 20 ++ dq "<div class='new-source-group'>"
              ++ nl 24 ++ dq "<div class='new-source-title'>"
              ++ html_escape source ++ " · "
              ++ str (Z.of_nat (List.length titles)) ++ "條</div>") ;;
  Ok (group ++ nl 20 ++ "</div>").

Definition render_new_titles_html (show_new_section : bool)
  (report_data : ReportData) : result string :=
  if show_new_section && nonempty (new_titles report_data)
  then groups <- for_each render_new_source_group (new_titles report_data)
                   (nl 16 ++ dq "<div class='new-section'>"
                    ++ nl 20 ++ dq "<div class='new-section-title'>"
                    ++ "本次新增熱點 (共 " ++ str (total_new_count report_data)
                    ++ " 條)</div>") ;;
       Ok (groups ++ nl 16 ++ "</div>")
  else Ok EmptyString.

(** *** [render_rss_stats_html] *)

Definition render_rss_item (title_data : Item) : string :=
  let item_title := get (title title_data) EmptyString in
  let link := get (url title_data) EmptyString in
  let time := get (time_display title_data) EmptyString in
  let source := get (source_name title_data) EmptyString in
  nl 24 ++ dq "<div class='rss-item'>"
  ++ nl 28 ++ dq "<div class='rss-meta'>"
  ++ (if truthy time
      then dq "<span class='rss-time'>" ++ html_escape time ++ "</span>"
      else EmptyString)
  ++ (if truthy source
      then dq "<span class='rss-author'>" ++ html_escape source ++ "</span>"
      else EmptyString)
  ++ (if get (is_new title_data) false
      then dq "<span class='rss-author' style='color: #dc2626;'>NEW</span>"
      else EmptyString)
  ++ nl 28 ++ "</div>"
  ++ nl 28 ++ dq "<div class='rss-title'>"
  ++ (if truthy link
      then anchor "rss-link" (html_escape link) (html_escape item_title)
      else html_escape item_title)
  ++ nl 28 ++ "</div>"
  ++ nl 24 ++ "</div>".

Definition render_feed_group (stat : Stat) : string :=
  let keyword := get (stat_word stat) EmptyString in
  let titles := get (stat_titles stat) nil in
  if nonempty titles
  then nl 20 ++ dq "<div class='feed-group'>"
       ++ nl 24 ++ dq "<div class='feed-header'>"
       ++ nl 28 ++ dq "<div class='feed-name'>" ++ html_escape keyword ++ "</div>"
       ++ nl 28 ++ dq "<div class='feed-count'>"
       ++ str (Z.of_nat (List.length titles)) ++ " 條</div>"
       ++ nl 24 ++ "</div>"
       ++ String.concat EmptyString (map render_rss_item titles)
       ++ nl 20 ++ "</div>"
  else EmptyString.

Definition sum_by {A : Type} (f : A -> Z) (l : list A) : Z :=
  fold_left (fun total x => (total + f x)%Z) l 0%Z.

Definition render_rss_stats_html (rss_stats : list Stat) (section_title : string)
  : string :=
  if nonempty rss_stats
  then let total_count := sum_by (fun stat => get (stat_count stat) 0%Z) rss_stats in
       if (total_count =? 0)%Z then EmptyString
       else nl 16 ++ dq "<div class='rss-section'>"
            ++ nl 20 ++ dq "<div class='rss-section-header'>"
            ++ nl 24 ++ dq "<div class='rss-section-title'>" ++ section_title
            ++ "</div>"
            ++ nl 24 ++ dq "<div class='rss-section-count'>" ++ str total_count
            ++ " 條</div>"
            ++ nl 20 ++ "</div>"
            ++ String.concat EmptyString (map render_feed_group rss_stats)
            ++ nl 16 ++ "</div>"
  else EmptyString.

(** *** [render_standalone_html] *)

Definition standalone_rank_class (item : Item) : string :=
  let min_rank := list_min (get (ranks item) nil) in
  if (min_rank <=? 3)%Z then "top"
  else if (min_rank <=? 10)%Z then "high"
  else EmptyString.

Definition standalone_rank_text (item : Item) : string :=
  let min_rank := list_min (get (ranks item) nil) in
  let max_rank := list_max (get (ranks item) nil) in
  if (min_rank =? max_rank)%Z then str min_rank
  else str min_rank ++ "-" ++ str max_rank.

Definition standalone_rank_badge (item : Item) : string :=
  let the_rank := get (rank item) 0%Z in
  if nonempty (get (ranks item) nil)
  then dq "<span class='rank-num " ++ standalone_rank_class item ++ dq "'>"
       ++ standalone_rank_text item ++ "</span>"
  else if (the_rank >? 0)%Z
  then dq "<span class='rank-num "
       ++ (if (the_rank <=? 3)%Z then "top"
           else if (the_rank <=? 10)%Z then "high" else EmptyString)
       ++ dq "'>" ++ str the_rank ++ "</span>"
  else EmptyString.

Definition standalone_time_info (item : Item) : string :=
  let first := get (first_time item) EmptyString in
  let last := get (last_time item) EmptyString in
  if truthy first && truthy last && negb (first =? last)
  then dq "<span class='time-info'>"
       ++ html_escape (convert_time_for_display first) ++ "~"
       ++ html_escape (convert_time_for_display last) ++ "</span>"
  else if truthy first
  then dq "<span class='time-info'>"
       ++ html_escape (convert_time_for_display first) ++ "</span>"
  else EmptyString.

(** The link of a platform item: [url] when it is set and not empty,
    otherwise [mobileUrl], otherwise the empty string. *)
Definition standalone_link_url (item : Item) : string :=
  or_else (get (url item) EmptyString) (get (mobileUrl item) EmptyString).

Definition standalone_title_markup (item : Item) : string :=
  let link := standalone_link_url item in
  let escaped_title := html_escape (get (title item) EmptyString) in
  if truthy link
  then anchor "news-link" (html_escape link) escaped_title
  else escaped_title.

Definition render_platform_item (entry : Z * Item) : string :=
  let '(j, item) := entry in
  nl 24 ++ dq "<div class='news-item'>"
  ++ nl 28 ++ dq "<div class='news-number'>" ++ str j ++ "</div>"
  ++ nl 28 ++ dq "<div class='news-content'>"
  ++ nl 32 ++ dq "<div class='news-header'>"
  ++ standalone_rank_badge item
  ++ standalone_time_info item
  ++ count_info_badge item
  ++ nl 32 ++ "</div>"
  ++ nl 32 ++ dq "<div class='news-title'>"
  ++ standalone_title_markup item
  ++ nl 32 ++ "</div>"
  ++ nl 28 ++ "</div>"
  ++ nl 24 ++ "</div>".

(** The [try] block that formats [published_at]. *)
Definition feed_time_display (published : string) : string :=
  if contains "T" published
  then match fromisoformat (replace "Z" "+00:00" published) with
       | Some dt_obj => strftime_md_HM dt_obj
       | None => published
       end
  else published.

Definition feed_time_info (item : Item) : string :=
  let published := get (published_at item) EmptyString in
  if truthy published
  then dq "<span class='time-info'>" ++ html_escape (feed_time_display published)
       ++ "</span>"
  else EmptyString.

Definition render_feed_item (entry : Z * Item) : string :=
  let '(j, item) := entry in
  let link := get (url item) EmptyString in
  let the_author := get (author item) EmptyString in
  let escaped_title := html_escape (get (title item) EmptyString) in
  nl 24 ++ dq "<div class='news-item'>"
  ++ nl 28 ++ dq "<div class='news-number'>" ++ str j ++ "</div>"
  ++ nl 28 ++ dq "<div class='news-content'>"
  ++ nl 32 ++ dq "<div class='news-header'>"
  ++ feed_time_info item
  ++ (if truthy the_author
      then dq "<span class='source-name'>" ++ html_escape the_author ++ "</span>"
      else EmptyString)
  ++ nl 32 ++ "</div>"
  ++ nl 32 ++ dq "<div class='news-title'>"
  ++ (if truthy link
      then anchor "news-link" (html_escape link) escaped_title
      else escaped_title)
  ++ nl 32 ++ "</div>"
  ++ nl 28 ++ "</div>"
  ++ nl 24 ++ "</div>".

(** A platform or a feed with its items; [render_item] is the body of the
    inner loop. *)
Definition render_standalone_group (render_item : Z * Item -> string)
  (group : Group) : string :=
  let name := get (group_name group) (get (group_id group) EmptyString) in
  let items := get (group_items group) nil in
  if nonempty items
  then nl 20 ++ dq "<div class='standalone-group'>"
       ++ nl 24 ++ dq "<div class='standalone-header'>"
       ++ nl 28 ++ dq "<div class='standalone-name'>" ++ html_escape name
       ++ "</div>"
       ++ nl 28 ++ dq "<div class='standalone-count'>"
       ++ str (Z.of_nat (List.length items)) ++ " 條</div>"
       ++ nl 24 ++ "</div>"
       ++ String.concat EmptyString (map render_item (enumerate 1 items))
       ++ nl 20 ++ "</div>"
  else EmptyString.

Definition render_standalone_html (data : option StandaloneData) : string :=
  match data with
  | None => EmptyString
  | Some d =>
      let the_platforms := get (platforms d) nil in
      let the_feeds := get (rss_feeds d) nil in
      if negb (nonempty the_platforms) && negb (nonempty the_feeds) then EmptyString
      else
        let count_items := fun g : Group =>
              Z.of_nat (List.length (get (group_items g) nil)) in
        let total_count :=
              (sum_by count_items the_platforms + sum_by count_items the_feeds)%Z in
        if (total_count =? 0)%Z then EmptyString
        else nl 16 ++ dq "<div class='standalone-section'>"
             ++ nl 20 ++ dq "<div class='standalone-section-header'>"
             ++ nl 24 ++ dq "<div class='standalone-section-title'>獨立展示區</div>"
             ++ nl 24 ++ dq "<div class='standalone-section-count'>"
             ++ str total_count ++ " 條</div>"
             ++ nl 20 ++ "</div>"
             ++ String.concat EmptyString
                  (map (render_standalone_group render_platform_item) the_platforms)
             ++ String.concat EmptyString
                  (map (render_standalone_group render_feed_item) the_feeds)
             ++ nl 16 ++ "</div>"
  end.

(** *** Assembling the regions *)

Definition class_attr : string := dq "class='".

Definition add_section_divider (content : string) : string :=
  if negb (truthy content) || negb (contains class_attr content) then content
  else match find class_attr content with
       | Some first_class_pos =>
           let insert_pos := (first_class_pos + String.length class_attr)%nat in
           take insert_pos content ++ "section-divider " ++ drop insert_pos content
       | None => content
       end.

(** The four statements guarded by [if content:]; the state is the pair of
    [html] and [has_previous_content]. *)
Definition append_content (content : string) (state : string * bool)
  : string * bool :=
  let '(html, has_previous_content) := state in
  if truthy content
  then (html ++ (if has_previous_content then add_section_divider content
                 else content),
        true)
  else state.

(** One turn of [for region in region_order]. *)
Definition assemble_region (region_contents : RegionContents)
  (state : string * bool) (region : string) : string * bool :=
  match region_contents_get region_contents region with
  | Two new_html rss_new => append_content rss_new (append_content new_html state)
  | Single content => append_content content state
  end.

Definition assemble (region_contents : RegionContents)
  (region_order : list string) (html : string) : string * bool :=
  fold_left (assemble_region region_contents) region_order (html, false).

(** *** The page *)

Definition mode_label (mode : string) : string :=
  if mode =? "current" then "當前榜單"
  else if mode =? "incremental" then "增量分析"
  else "全天匯總".

Definition next_info_item (label : string) : string :=
  "</span>"
  ++ nl 20 ++ "</div>"
  ++ nl 20 ++ dq "<div class='info-item'>"
  ++ nl 24 ++ dq "<span class='info-label'>" ++ label ++ "</span>"
  ++ nl 24 ++ dq "<span class='info-value'>".

Definition open_content : string :=
  "</span>"
  ++ nl 20 ++ "</div>"
  ++ nl 16 ++ "</div>"
  ++ nl 12 ++ "</div>"
  ++ nl 0
  ++ nl 12 ++ dq "<div class='content'>".

Definition render_error_section (the_failed_ids : list string) : string :=
  if nonempty the_failed_ids
  then nl 16 ++ dq "<div class='error-section'>"
       ++ nl 20 ++ dq "<div class='error-title'>⚠️ 請求失敗的平台</div>"
       ++ nl 20 ++ dq "<ul class='error-list'>"
       ++ String.concat EmptyString
            (map (fun id_value => dq "<li class='error-item'>"
                                  ++ html_escape id_value ++ "</li>")
                 the_failed_ids)
       ++ nl 20 ++ "</ul>"
       ++ nl 16 ++ "</div>"
  else EmptyString.

Definition render_footer (update_info : option UpdateInfo) : string :=
  nl 12 ++ "</div>"
  ++ nl 0
  ++ nl 12 ++ dq "<div class='footer'>"
  ++ nl 16 ++ dq "<div class='footer-content'>"
  ++ nl 20 ++ dq "由 <span class='project-name'>TrendRadar</span> 生成 ·"
  ++ nl 20
  ++ dq "<a href='https://github.com/sansan0/TrendRadar' target='_blank' class='footer-link'>"
  ++ nl 24 ++ "GitHub 開源項目"
  ++ nl 20 ++ "</a>"
  ++ match update_info with
     | Some info =>
         nl 20 ++ "<br>"
         ++ nl 20 ++ dq "<span style='color: #ea580c; font-weight: 500;'>"
         ++ nl 24 ++ "發現新版本 " ++ remote_version info ++ "，當前版本 "
         ++ current_version info
         ++ nl 20 ++ "</span>"
     | None => EmptyString
     end
  ++ nl 16 ++ "</div>"
  ++ nl 12 ++ "</div>"
  ++ nl 8 ++ "</div>"
  ++ page_script.

(** [sum(len(stat["titles"]) for stat in report_data["stats"])] *)
Fixpoint hot_news_count (the_stats : list Stat) : result Z :=
  match the_stats with
  | nil => Ok 0%Z
  | stat :: rest =>
      titles <- subscript "titles" (stat_titles stat) ;;
      others <- hot_news_count rest ;;
      Ok (Z.of_nat (List.length titles) + others)%Z
  end.

(** The opening of the page, up to the point where the regions start; the
    time is the one read from [get_time_func] or from the machine. *)
Definition render_opening (report_data : ReportData) (total_titles : Z)
  (mode : string) (now : datetime) : result string :=
  hot <- hot_news_count (stats report_data) ;;
  Ok (page_head ++ mode_label mode
      ++ next_info_item "新聞總數" ++ str total_titles ++ " 條"
      ++ next_info_item "熱點新聞" ++ str hot ++ " 條"
      ++ next_info_item "生成時間" ++ strftime_md_HM now
      ++ open_content
      ++ render_error_section (failed_ids report_data)).

(** The contents of the five regions, in the order the function computes
    them. *)
Definition prepare_region_contents (report_data : ReportData)
  (rss_items rss_new_items : option (list Stat)) (display_mode : string)
  (standalone_data : option StandaloneData)
  (ai_analysis : option AIAnalysisResult) (show_new_section : bool)
  : result RegionContents :=
  stats_html <- render_stats_html display_mode (stats report_data) ;;
  new_titles_html <- render_new_titles_html show_new_section report_data ;;
  let rss_stats_html :=
    if nonempty (get rss_items nil)
    then render_rss_stats_html (get rss_items nil) "RSS 訂閱更新" else EmptyString in
  let rss_new_html :=
    if nonempty (get rss_new_items nil)
    then render_rss_stats_html (get rss_new_items nil) "RSS 新增更新" else EmptyString in
  let standalone_html := render_standalone_html standalone_data in
  let ai_html := match ai_analysis with
                 | Some analysis => render_ai_analysis_html_rich analysis
                 | None => EmptyString
                 end in
  Ok (mkRegionContents stats_html rss_stats_html (new_titles_html, rss_new_html)
                       standalone_html ai_html).

Definition read_clock (get_time_func : option (World -> datetime)) (w : World)
  : datetime :=
  match get_time_func with
  | Some f => f w
  | None => wall_clock w
  end.

Definition render_html_content (w : World) (report_data : ReportData)
  (total_titles : Z) (mode : string) (update_info : option UpdateInfo)
  (region_order : option (list string))
  (get_time_func : option (World -> datetime))
  (rss_items rss_new_items : option (list Stat)) (display_mode : string)
  (standalone_data : option StandaloneData)
  (ai_analysis : option AIAnalysisResult) (show_new_section : bool)
  : result string :=
  let order := get region_order default_region_order in
  opening <- render_opening report_data total_titles mode
               (read_clock get_time_func w) ;;
  region_contents <- prepare_region_contents report_data rss_items rss_new_items
                       display_mode standalone_data ai_analysis
                       show_new_section ;;
  Ok (fst (assemble region_contents order opening) ++ render_footer update_info).

(** *** Vocabulary for the properties of the assembly *)

(** The parts a region kind contributes, in order: two for [new_items]. *)
Definition region_parts (region_contents : RegionContents) (region : string)
  : list string :=
  match region_contents_get region_contents region with
  | Two new_html rss_new => [new_html; rss_new]%list
  | Single content => [content]%list
  end.

(** The non-empty parts in the order they are appended. *)
Definition appended_parts (region_contents : RegionContents)
  (region_order : list string) : list string :=
  filter truthy (flat_map (region_parts region_contents) region_order).

(** [marked content]: [content] with the marker written right after the
    opening of the first class attribute it contains. *)
Definition marked (content : string) : string :=
  match find class_attr content with
  | Some pos =>
      take (pos + String.length class_attr) content ++ "section-divider "
      ++ drop (pos + String.length class_attr) content
  | None => content
  end.

(** What the assembly writes for a list of parts: the first as it is, the
    others through [add_section_divider]. *)
Definition written (parts : list string) : list string :=
  match parts with
  | nil => nil
  | first :: others => first :: map add_section_divider others
  end.

(** The number of divider markers written for a list of parts: one for each
    part that went through [add_section_divider] and came out changed. *)
Definition dividers_written (parts : list string) : nat :=
  List.length
    (filter (fun content => negb (add_section_divider content =? content))
            (tl parts)).

(** What [append_content] leaves after a list of candidate contents, from
    a state whose flag is [has_previous_content]. *)
Definition written_after (has_previous_content : bool) (parts : list string)
  : list string :=
  if has_previous_content then map add_section_divider parts else written parts.

(** *** Vocabulary for the keys read with a subscript *)

Definition title_has_required_keys (display_mode : string) (title_data : Item)
  : Prop :=
  title title_data <> None
  /\ (display_mode = "keyword" -> source_name title_data <> None).

Definition stat_has_required_keys (display_mode : string) (stat : Stat) : Prop :=
  stat_count stat <> None
  /\ stat_word stat <> None
  /\ exists titles, stat_titles stat = Some titles
                    /\ Forall (title_has_required_keys display_mode) titles.

Definition source_has_required_keys (source_data : SourceData) : Prop :=
  src_source_name source_data <> None
  /\ exists titles, src_titles source_data = Some titles
                    /\ Forall (fun title_data => title title_data <> None) titles.

Definition report_has_required_keys (display_mode : string)
  (show_new_section : bool) (report_data : ReportData) : Prop :=
  Forall (stat_has_required_keys display_mode) (stats report_data)
  /\ (show_new_section = true ->
      Forall source_has_required_keys (new_titles report_data)).

(** The region kinds [region_contents] has a key for. *)
Definition is_known_region (region : string) : bool :=
  (region =? "hotlist") || (region =? "rss") || (region =? "new_items")
  || (region =? "standalone") || (region =? "ai_analysis").
(* ===================================================================== *)
(** * Part II. Properties                                                 *)
(* ===================================================================== *)

(* --------------------------------------------------------------------- *)
(** ** Strings                                                            *)
(* --------------------------------------------------------------------- *)

Lemma append_assoc (a b c : string) : (a ++ b) ++ c = a ++ (b ++ c).
Proof. induction a as [| x a IH]; cbn; [reflexivity | rewrite IH; reflexivity]. Qed.

Lemma append_nil_r (a : string) : a ++ EmptyString = a.
Proof. induction a as [| x a IH]; cbn; [reflexivity | rewrite IH; reflexivity]. Qed.

Lemma length_append (a b : string) :
  String.length (a ++ b) = (String.length a + String.length b)%nat.
Proof. induction a as [| x a IH]; cbn; [reflexivity | rewrite IH; reflexivity]. Qed.

Lemma take_drop (n : nat) : forall s, take n s ++ drop n s = s.
Proof.
  induction n as [| n IH]; intros [| c s]; cbn; try reflexivity.
  rewrite IH. reflexivity.
Qed.

Lemma concat_cons (x : string) (l : list string) :
  String.concat EmptyString (x :: l) = x ++ String.concat EmptyString l.
Proof.
  destruct l as [| y l]; cbn; [symmetry; apply append_nil_r | reflexivity].
Qed.

Lemma truthy_false (s : string) : truthy s = false -> s = EmptyString.
Proof.
  unfold truthy. intros H. apply negb_false_iff in H. apply String.eqb_eq, H.
Qed.

Lemma truthy_append (a b : string) : truthy a = true -> truthy (a ++ b) = true.
Proof. destruct a; [discriminate | reflexivity]. Qed.


Lemma find_cons (sub : string) (x : ascii) (a : string) :
  find sub (String x a)
  = if prefix sub (String x a) then Some O else option_map S (find sub a).
Proof. reflexivity. Qed.


(** [add_section_divider] writes the marker into the first class attribute
    of a content that has one, and leaves any other content alone. *)
Lemma add_section_divider_marked (content : string) :
  add_section_divider content = marked content.
Proof.
  unfold add_section_divider, marked, contains.
  destruct (find class_attr content) eqn:E; cbn.
  - destruct (truthy content) eqn:T; cbn; [reflexivity |].
    apply truthy_false in T. subst content. cbv in E. discriminate E.
  - rewrite orb_true_r. reflexivity.
Qed.


Lemma add_section_divider_keeps (content : string) :
  contains class_attr content = false ->
  add_section_divider content = content.
Proof.
  intros H. unfold add_section_divider. rewrite H, orb_true_r. reflexivity.
Qed.

Lemma add_section_divider_truthy (content : string) :
  truthy content = true -> truthy (add_section_divider content) = true.
Proof.
  intros H. rewrite add_section_divider_marked. unfold marked.
  destruct (find class_attr content) as [pos |]; [| exact H].
  destruct (take (pos + String.length class_attr) content); reflexivity.
Qed.

(* --------------------------------------------------------------------- *)
(** ** The assembly loop                                                  *)
(* --------------------------------------------------------------------- *)

Lemma append_contents_spec (contents : list string) : forall html flag,
  fold_left (fun state content => append_content content state) contents
            (html, flag)
  = (html ++ String.concat EmptyString
               (written_after flag (filter truthy contents)),
     flag || nonempty (filter truthy contents)).
Proof.
  induction contents as [| c contents IH]; intros html flag.
  - cbn. destruct flag; cbn; rewrite append_nil_r; reflexivity.
  - cbn [fold_left filter]. unfold append_content at 2.
    destruct (truthy c) eqn:T.
    + rewrite IH. unfold written_after. f_equal.
      * destruct flag; cbn [written map]; rewrite concat_cons, append_assoc;
          reflexivity.
      * destruct flag; reflexivity.
    + apply IH.
Qed.

Lemma assemble_region_parts (region_contents : RegionContents) state region :
  assemble_region region_contents state region
  = fold_left (fun st content => append_content content st)
              (region_parts region_contents region) state.
Proof.
  unfold assemble_region, region_parts.
  destruct (region_contents_get region_contents region); reflexivity.
Qed.

Lemma fold_left_flat_map {A B C : Type} (f : A -> C -> A) (g : B -> list C)
  (l : list B) : forall a,
  fold_left f (flat_map g l) a = fold_left (fun a x => fold_left f (g x) a) l a.
Proof.
  induction l as [| x l IH]; intros a; [reflexivity |].
  cbn [flat_map fold_left]. rewrite fold_left_app. apply IH.
Qed.

(** The loop appends the non-empty parts in order, the first as it is and
    every later one through [add_section_divider]. *)
Lemma assemble_spec (region_contents : RegionContents)
  (region_order : list string) (html : string) :
  assemble region_contents region_order html
  = (html ++ String.concat EmptyString
               (written (appended_parts region_contents region_order)),
     nonempty (appended_parts region_contents region_order)).
Proof.
  unfold assemble, appended_parts.
  pose proof (append_contents_spec
                (flat_map (region_parts region_contents) region_order)
                html false) as H.
  unfold written_after in H. cbn [orb] in H. rewrite <- H.
  rewrite fold_left_flat_map.
  clear H. generalize (html, false).
  induction region_order as [| region rest IH]; intros state.
  - reflexivity.
  - cbn [fold_left]. rewrite assemble_region_parts. apply IH.
Qed.


(* --------------------------------------------------------------------- *)
(** ** Every region rendered here opens with a class attribute            *)
(* --------------------------------------------------------------------- *)

(** Either empty, or carrying a class attribute for the marker. *)
Lemma Ok_inj {A : Type} (a b : A) : Ok a = Ok b -> a = b.
Proof. intros H. injection H. trivial. Qed.


Lemma for_each_extends {A : Type} (body : A -> result string) (l : list A) :
  forall out r, for_each body l out = Ok r -> exists more, r = out ++ more.
Proof.
  induction l as [| x l IH]; intros out r H.
  - apply Ok_inj in H. subst r. exists EmptyString. symmetry.
    apply append_nil_r.
  - cbn [for_each] in H. destruct (body x) as [piece |]; unfold bind in H;
      [| discriminate H].
    destruct (IH _ _ H) as [more ->]. exists (piece ++ more).
    apply append_assoc.
Qed.








(* --------------------------------------------------------------------- *)
(** ** Rank badges                                                        *)
(* --------------------------------------------------------------------- *)


(** In the hot-list path and in the standalone path the rank text is the
    least rank alone when it equals the greatest, and the range otherwise. *)
Lemma rank_text_min_max (item : Item) :
  let lo := list_min (get (ranks item) nil) in
  let hi := list_max (get (ranks item) nil) in
  (lo = hi -> hotlist_rank_text item = str lo
              /\ standalone_rank_text item = str lo)
  /\ (lo <> hi -> hotlist_rank_text item = str lo ++ "-" ++ str hi
                  /\ standalone_rank_text item = str lo ++ "-" ++ str hi).
Proof.
  cbv zeta. unfold hotlist_rank_text, standalone_rank_text.
  destruct (Z.eqb_spec (list_min (get (ranks item) nil))
                       (list_max (get (ranks item) nil)));
    split; intros; try contradiction; split; reflexivity.
Qed.

(** C5 at the rank list [3, 3].  The new-titles path tests the length of
    the list and writes the range [3-3]; the hot-list path and the
    standalone path compare the least with the greatest rank and write
    [3]. *)
Theorem new_item_rank_text_of_repeated_rank :
  new_item_rank_text (item_with_ranks [3; 3]%Z 10) = "3-3"
  /\ hotlist_rank_text (item_with_ranks [3; 3]%Z 10) = "3"
  /\ standalone_rank_text (item_with_ranks [3; 3]%Z 10) = "3".
Proof. repeat split. Qed.

(* --------------------------------------------------------------------- *)
(** ** Times                                                              *)
(* --------------------------------------------------------------------- *)

(** C6 (as the code has it).  For a platform item of the standalone region:
    with both times present and different the element shows the first and
    the last time joined by [~]; with the first time present and the last
    absent or equal to it, the first time alone; with the first time absent
    there is no time element, whether or not a last time is present. *)
Theorem standalone_time_element :
  forall (item : Item),
    (get (first_time item) EmptyString <> EmptyString ->
     get (last_time item) EmptyString <> EmptyString ->
     get (first_time item) EmptyString <> get (last_time item) EmptyString ->
     standalone_time_info item
     = dq "<span class='time-info'>"
       ++ html_escape (convert_time_for_display (get (first_time item) EmptyString))
       ++ "~"
       ++ html_escape (convert_time_for_display (get (last_time item) EmptyString))
       ++ "</span>")
    /\ (get (first_time item) EmptyString <> EmptyString ->
        (get (last_time item) EmptyString = EmptyString
         \/ get (last_time item) EmptyString = get (first_time item) EmptyString) ->
        standalone_time_info item
        = dq "<span class='time-info'>"
          ++ html_escape (convert_time_for_display (get (first_time item) EmptyString))
          ++ "</span>")
    /\ (get (first_time item) EmptyString = EmptyString ->
        standalone_time_info item = EmptyString).
Proof.
  intros item. unfold standalone_time_info, truthy.
  destruct (String.eqb_spec (get (first_time item) EmptyString) EmptyString) as [F | F];
    destruct (String.eqb_spec (get (last_time item) EmptyString) EmptyString) as [L | L];
    destruct (String.eqb_spec (get (first_time item) EmptyString)
                              (get (last_time item) EmptyString)) as [E | E];
    cbn [negb andb]; repeat split; intros; try reflexivity;
    try contradiction;
    match goal with
    | H : _ \/ _ |- _ =>
        destruct H as [H | H]; [contradiction | symmetry in H; contradiction]
    end.
Qed.

(** C9.  For a feed item of the standalone region with a non-empty
    [published_at]: when the string has the [T] of a full timestamp and
    the parser accepts it, the element shows month-day hour:minute of the
    parsed value; when the parser rejects it, or when the string has no [T],
    the element shows the string itself.  The function has a value in every
    case. *)
Theorem feed_time_element :
  forall (item : Item) (published : string),
    published_at item = Some published ->
    published <> EmptyString ->
    (forall parsed,
        contains "T" published = true ->
        fromisoformat (replace "Z" "+00:00" published) = Some parsed ->
        feed_time_info item
        = dq "<span class='time-info'>" ++ html_escape (strftime_md_HM parsed)
          ++ "</span>")
    /\ (contains "T" published = true ->
        fromisoformat (replace "Z" "+00:00" published) = None ->
        feed_time_info item
        = dq "<span class='time-info'>" ++ html_escape published ++ "</span>")
    /\ (contains "T" published = false ->
        feed_time_info item
        = dq "<span class='time-info'>" ++ html_escape published ++ "</span>").
Proof.
  intros item published Hp Hne. unfold feed_time_info, feed_time_display.
  rewrite Hp. cbn [get].
  assert (T : truthy published = true).
  { unfold truthy. apply negb_true_iff, String.eqb_neq, Hne. }
  rewrite T. repeat split.
  - intros parsed Hc Hparse. rewrite Hc, Hparse. reflexivity.
  - intros Hc Hparse. rewrite Hc, Hparse. reflexivity.
  - intros Hc. rewrite Hc. reflexivity.
Qed.

(* --------------------------------------------------------------------- *)
(** ** Links                                                              *)
(* --------------------------------------------------------------------- *)

(** In the hot-list and new-titles paths a non-empty [mobile_url] is the
    link; in every path an empty link leaves the title as plain text. *)
Lemma title_link_prefers_mobile_url (title_data : Item) (mobile : string) :
  mobile_url title_data = Some mobile -> mobile <> EmptyString ->
  title_link_url title_data = mobile.
Proof.
  intros Hm Hne. unfold title_link_url, or_else, truthy. rewrite Hm. cbn [get].
  destruct (String.eqb_spec mobile EmptyString); [contradiction | reflexivity].
Qed.

Lemma empty_link_plain_title (item : Item) (escaped_title : string) :
  (title_link_url item = EmptyString ->
   title_markup item escaped_title = escaped_title)
  /\ (standalone_link_url item = EmptyString ->
      standalone_title_markup item
      = html_escape (get (title item) EmptyString)).
Proof.
  unfold title_markup, standalone_title_markup.
  split; intros ->; reflexivity.
Qed.

(** C7 at an item with both links.  The hot-list and new-titles paths link
    to the mobile address; the standalone path links to the regular
    address. *)
Theorem standalone_link_of_item_with_both :
  title_link_url (item_with_links (Some "https://example.org/a")
                                  (Some "https://m.example.org/a") None)
  = "https://m.example.org/a"
  /\ standalone_link_url (item_with_links (Some "https://example.org/a") None
                                          (Some "https://m.example.org/a"))
     = "https://example.org/a".
Proof. split; reflexivity. Qed.

(* --------------------------------------------------------------------- *)
(** ** Absent keys                                                        *)
(* --------------------------------------------------------------------- *)

Lemma for_each_ok {A : Type} (body : A -> result string) (l : list A) :
  (forall x, In x l -> exists piece, body x = Ok piece) ->
  forall out, exists r, for_each body l out = Ok r.
Proof.
  induction l as [| x l IH]; intros H out.
  - exists out. reflexivity.
  - destruct (H x (or_introl eq_refl)) as [piece Hp]. cbn [for_each].
    rewrite Hp. unfold bind. apply IH. intros y Hy. apply H. right. exact Hy.
Qed.

Lemma In_enumerate {A : Type} (l : list A) : forall start i x,
  In (i, x) (enumerate start l) -> In x l.
Proof.
  induction l as [| y l IH]; intros start i x H; [exact H |].
  destruct H as [H | H]; [left; congruence | right; eapply IH; exact H].
Qed.

Lemma render_news_item_ok display_mode j title_data :
  title_has_required_keys display_mode title_data ->
  exists piece, render_news_item display_mode (j, title_data) = Ok piece.
Proof.
  intros [Ht Hs]. unfold render_news_item, source_or_keyword.
  destruct (title title_data) as [the_title |]; [| contradiction].
  destruct (String.eqb_spec display_mode "keyword") as [E | E].
  - destruct (source_name title_data) as [source |];
      [| exfalso; apply (Hs E); reflexivity].
    eexists. reflexivity.
  - eexists. reflexivity.
Qed.

Lemma render_word_group_ok display_mode total_count i stat :
  stat_has_required_keys display_mode stat ->
  exists piece, render_word_group display_mode total_count (i, stat) = Ok piece.
Proof.
  intros (Hc & Hw & titles & Ht & Hall). unfold render_word_group.
  destruct (stat_count stat) as [the_count |]; [| contradiction].
  destruct (stat_word stat) as [word |]; [| contradiction].
  rewrite Ht. cbn [subscript]. unfold bind at 1 2 3.
  match goal with
  | |- context [for_each ?body ?l ?init] =>
      assert (Hbody : forall x, In x l -> exists piece, body x = Ok piece);
        [| destruct (for_each_ok body l Hbody init) as [r Hr]]
  end.
  - intros [j title_data] Hin. apply render_news_item_ok.
    rewrite Forall_forall in Hall. apply Hall.
    eapply In_enumerate. exact Hin.
  - rewrite Hr. eexists. reflexivity.
Qed.

Lemma hot_news_count_ok display_mode the_stats :
  Forall (stat_has_required_keys display_mode) the_stats ->
  exists n, hot_news_count the_stats = Ok n.
Proof.
  induction 1 as [| stat rest (_ & _ & titles & Ht & _) _ [n IH]].
  - eexists. reflexivity.
  - cbn [hot_news_count]. rewrite Ht, IH. eexists. reflexivity.
Qed.

Lemma render_stats_html_ok display_mode the_stats :
  Forall (stat_has_required_keys display_mode) the_stats ->
  exists s, render_stats_html display_mode the_stats = Ok s.
Proof.
  intros Hall. unfold render_stats_html.
  match goal with
  | |- context [for_each ?body ?l ?init] =>
      assert (Hbody : forall x, In x l -> exists piece, body x = Ok piece);
        [| destruct (for_each_ok body l Hbody init) as [r Hr]]
  end.
  - intros [i stat] Hin. apply render_word_group_ok.
    rewrite Forall_forall in Hall. apply Hall.
    eapply In_enumerate. exact Hin.
  - rewrite Hr. eexists. reflexivity.
Qed.

Lemma render_new_source_group_ok source_data :
  source_has_required_keys source_data ->
  exists piece, render_new_source_group source_data = Ok piece.
Proof.
  intros (Hs & titles & Ht & Hall). unfold render_new_source_group.
  destruct (src_source_name source_data) as [source |]; [| contradiction].
  rewrite Ht. cbn [subscript]. unfold bind at 1 2.
  match goal with
  | |- context [for_each ?body ?l ?init] =>
      assert (Hbody : forall x, In x l -> exists piece, body x = Ok piece);
        [| destruct (for_each_ok body l Hbody init) as [r Hr]]
  end.
  - intros [idx title_data] Hin. unfold render_new_item.
    rewrite Forall_forall in Hall.
    specialize (Hall title_data (In_enumerate _ _ _ _ Hin)).
    destruct (title title_data); [| contradiction]. eexists. reflexivity.
  - rewrite Hr. eexists. reflexivity.
Qed.

Lemma render_new_titles_html_ok show_new_section report_data :
  (show_new_section = true ->
   Forall source_has_required_keys (new_titles report_data)) ->
  exists s, render_new_titles_html show_new_section report_data = Ok s.
Proof.
  intros H. unfold render_new_titles_html.
  destruct show_new_section; cbn [andb]; [| eexists; reflexivity].
  destruct (nonempty (new_titles report_data)); [| eexists; reflexivity].
  specialize (H eq_refl).
  match goal with
  | |- context [for_each ?body ?l ?init] =>
      assert (Hbody : forall x, In x l -> exists piece, body x = Ok piece);
        [| destruct (for_each_ok body l Hbody init) as [r Hr]]
  end.
  - intros source_data Hin. apply render_new_source_group_ok.
    rewrite Forall_forall in H. apply H, Hin.
  - rewrite Hr. eexists. reflexivity.
Qed.

(** A key read with [get] that is absent leaves its element out. *)
Lemma absent_optional_keys_leave_elements_out (item : Item) :
  (ranks item = None -> hotlist_rank_badge item = EmptyString)
  /\ (time_display item = None -> hotlist_time_info item = EmptyString)
  /\ (count item = None -> count_info_badge item = EmptyString)
  /\ (matched_keyword item = None ->
      source_or_keyword "platform" item = Ok EmptyString)
  /\ (mobile_url item = None -> url item = None ->
      forall escaped_title, title_markup item escaped_title = escaped_title).
Proof.
  unfold hotlist_rank_badge, hotlist_time_info, count_info_badge,
    source_or_keyword, title_markup, title_link_url.
  repeat split; intros; repeat match goal with H : _ = None |- _ => rewrite H end;
    reflexivity.
Qed.

(** [render_html_content] returns a page, and raises nothing, whenever the
    keys it reads with a subscript are there: [count], [word] and [titles]
    of every keyword group, [title] of every hot-list title and its
    [source_name] in keyword mode, and, when the new-titles section is
    shown, [source_name] and [titles] of every source and [title] of each of
    its titles.  In the hot list an absent [ranks], [time_display], [count]
    or [matched_keyword] leaves its element out, and a title without any
    link is written as plain text. *)
Lemma renders_when_subscripted_keys_present :
  forall w report_data total_titles mode update_info region_order
         get_time_func rss_items rss_new_items display_mode standalone_data
         ai_analysis show_new_section,
    report_has_required_keys display_mode show_new_section report_data ->
    (exists html,
        render_html_content w report_data total_titles mode update_info
          region_order get_time_func rss_items rss_new_items display_mode
          standalone_data ai_analysis show_new_section = Ok html)
    /\ forall item,
        (ranks item = None -> hotlist_rank_badge item = EmptyString)
        /\ (time_display item = None -> hotlist_time_info item = EmptyString)
        /\ (count item = None -> count_info_badge item = EmptyString)
        /\ (matched_keyword item = None ->
            source_or_keyword "platform" item = Ok EmptyString)
        /\ (mobile_url item = None -> url item = None ->
            forall escaped_title,
              title_markup item escaped_title = escaped_title).
Proof.
  intros w report_data total_titles mode update_info region_order
         get_time_func rss_items rss_new_items display_mode standalone_data
         ai_analysis show_new_section [Hstats Hnew].
  split; [| apply absent_optional_keys_leave_elements_out].
  unfold render_html_content, render_opening, prepare_region_contents.
  destruct (hot_news_count_ok _ _ Hstats) as [n ->].
  destruct (render_stats_html_ok _ _ Hstats) as [s ->].
  destruct (render_new_titles_html_ok _ _ Hnew) as [t ->].
  eexists. reflexivity.
Qed.

(** C8 at a hot-list title that has no [source_name], and at one that has
    no [title].  In keyword mode the first makes the call raise [KeyError]
    for [source_name] (line 851); the second makes it raise [KeyError] for
    [title] in either display mode (line 903), and so does a new title
    without [title] when the new-titles section is shown (line 969).  The
    feed path and the standalone path read the same keys with [get]: given
    the same two records as feed items and as standalone items, the call
    returns a page. *)
Theorem hotlist_title_without_source_name_raises :
  forall w total_titles mode update_info region_order get_time_func
         rss_items rss_new_items display_mode standalone_data ai_analysis
         show_new_section,
    render_html_content w (report_of [unsourced_item]) total_titles mode
      update_info region_order get_time_func rss_items rss_new_items
      "keyword" standalone_data ai_analysis show_new_section
    = Raise (KeyError "source_name")
    /\ render_html_content w (report_of [untitled_item]) total_titles mode
         update_info region_order get_time_func rss_items rss_new_items
         display_mode standalone_data ai_analysis show_new_section
       = Raise (KeyError "title")
    /\ render_html_content w (new_titles_of [untitled_item]) total_titles mode
         update_info region_order get_time_func rss_items rss_new_items
         display_mode standalone_data ai_analysis true
       = Raise (KeyError "title")
    /\ exists html,
         render_html_content w empty_report total_titles mode update_info
           region_order get_time_func
           (Some [feed_of [unsourced_item; untitled_item]])
           (Some [feed_of [unsourced_item; untitled_item]]) display_mode
           (Some (standalone_of [unsourced_item; untitled_item])) ai_analysis
           show_new_section
         = Ok html.
Proof.
  intros w total_titles mode update_info region_order get_time_func
         rss_items rss_new_items display_mode standalone_data ai_analysis
         show_new_section.
  split; [reflexivity | split; [| split]].
  - unfold render_html_content, render_opening, prepare_region_contents,
      render_stats_html, report_of.
    cbn [stats hot_news_count stat_titles subscript bind enumerate for_each
         List.length].
    unfold render_word_group.
    cbn [stat_count stat_word stat_titles subscript bind enumerate for_each].
    unfold render_news_item, source_or_keyword.
    destruct (display_mode =? "keyword"); reflexivity.
  - reflexivity.
  - unfold render_html_content, render_opening, prepare_region_contents,
      render_stats_html, render_new_titles_html, empty_report.
    cbn [stats new_titles hot_news_count bind enumerate for_each nonempty].
    rewrite andb_false_r. cbn [bind]. eexists. reflexivity.
Qed.

(* --------------------------------------------------------------------- *)
(** ** The clock                                                          *)
(* --------------------------------------------------------------------- *)

(** C10 (as the code has it).  Two calls with the same arguments return the
    same result, byte for byte, whenever the time each call reads (from
    [get_time_func], or from the machine when none is given) has the same
    month, day, hour and minute. *)
Theorem same_arguments_same_minute_same_page :
  forall w1 w2 report_data total_titles mode update_info region_order
         get_time_func rss_items rss_new_items display_mode standalone_data
         ai_analysis show_new_section,
    strftime_md_HM (read_clock get_time_func w1)
    = strftime_md_HM (read_clock get_time_func w2) ->
    render_html_content w1 report_data total_titles mode update_info
      region_order get_time_func rss_items rss_new_items display_mode
      standalone_data ai_analysis show_new_section
    = render_html_content w2 report_data total_titles mode update_info
        region_order get_time_func rss_items rss_new_items display_mode
        standalone_data ai_analysis show_new_section.
Proof.
  intros w1 w2 report_data total_titles mode update_info region_order
         get_time_func rss_items rss_new_items display_mode standalone_data
         ai_analysis show_new_section H.
  unfold render_html_content, render_opening. rewrite H. reflexivity.
Qed.

(* --------------------------------------------------------------------- *)
(** ** Where the divider marker lands                                     *)
(* --------------------------------------------------------------------- *)

Lemma Some_eq {A : Type} (a b : A) : Some a = Some b -> a = b.
Proof. intros H. injection H. trivial. Qed.

Lemma prefix_drop (sub : string) : forall s,
  prefix sub s = true -> s = sub ++ drop (String.length sub) s.
Proof.
  induction sub as [| a sub IH]; intros s H.
  - destruct s; reflexivity.
  - destruct s as [| b s]; cbn in H; [discriminate H |].
    destruct (ascii_dec a b) as [-> |]; [| discriminate H].
    cbn [String.length drop append]. f_equal. apply IH, H.
Qed.

Lemma find_drop (sub : string) : forall s n,
  find sub s = Some n -> drop n s = sub ++ drop (n + String.length sub) s.
Proof.
  induction s as [| c s IH]; intros n H.
  - cbn in H. destruct sub as [| a sub]; [| discriminate H].
    apply Some_eq in H. subst n. reflexivity.
  - rewrite find_cons in H. destruct (prefix sub (String c s)) eqn:E.
    + apply Some_eq in H. subst n. cbn [drop Nat.add].
      apply prefix_drop, E.
    + destruct (find sub s) as [k |]; [| discriminate H].
      apply Some_eq in H. subst n. cbn [drop Nat.add]. apply IH. reflexivity.
Qed.

Lemma take_add (n k : nat) : forall s,
  take (n + k) s = take n s ++ take k (drop n s).
Proof.
  induction n as [| n IH]; intros s; [reflexivity |].
  destruct s as [| c s]; cbn [Nat.add take drop append].
  - destruct k; reflexivity.
  - rewrite IH. reflexivity.
Qed.

Lemma take_append_exact (a b : string) : take (String.length a) (a ++ b) = a.
Proof.
  induction a as [| c a IH]; cbn; [destruct b; reflexivity |].
  rewrite IH. reflexivity.
Qed.

(** X1.  A content with a class attribute has the form [before ++ class_attr ++
    after], [before] ending where the first class attribute starts; the
    marker is written between the attribute's opening and [after], which
    makes the result 16 characters longer.  A content without a class
    attribute is left as it is. *)
Theorem add_section_divider_writes_after_first_class_attr :
  forall (content : string),
    (forall pos,
        find class_attr content = Some pos ->
        content = take pos content ++ class_attr
                  ++ drop (pos + String.length class_attr) content
        /\ add_section_divider content
           = take pos content ++ class_attr ++ "section-divider "
             ++ drop (pos + String.length class_attr) content
        /\ String.length (add_section_divider content)
           = (String.length content + 16)%nat)
    /\ (find class_attr content = None ->
        add_section_divider content = content).
Proof.
  intros content. split.
  - intros pos H.
    assert (Hdec : content = take pos content ++ class_attr
                             ++ drop (pos + String.length class_attr) content).
    { rewrite <- (find_drop _ _ _ H). symmetry. apply take_drop. }
    assert (Htake : take (pos + String.length class_attr) content
                    = take pos content ++ class_attr).
    { rewrite take_add. f_equal. rewrite (find_drop _ _ _ H).
      apply take_append_exact. }
    split; [exact Hdec |].
    assert (Hres : add_section_divider content
                   = take pos content ++ class_attr ++ "section-divider "
                     ++ drop (pos + String.length class_attr) content).
    { rewrite add_section_divider_marked. unfold marked. rewrite H, Htake.
      apply append_assoc. }
    split; [exact Hres |].
    pose proof (f_equal String.length Hdec) as Hlen.
    rewrite Hres. rewrite !length_append in Hlen |- *.
    rewrite (length_append "section-divider ").
    change (String.length "section-divider ") with 16%nat. lia.
  - intros H. apply add_section_divider_keeps. unfold contains. rewrite H.
    reflexivity.
Qed.

Lemma add_section_divider_outer_div (rest : string) :
  add_section_divider (nl 16 ++ dq "<div class='" ++ rest)
  = nl 16 ++ dq "<div class='section-divider " ++ rest.
Proof. destruct rest; reflexivity. Qed.

(** X2.  Each region rendered in this module opens with its own container, and
    the marker is written into the class attribute of that container: a
    marked region starts with the container carrying [section-divider]
    before its own class, and is otherwise unchanged. *)
Theorem divider_marks_outer_container_of_each_region :
  (forall display_mode the_stats s,
      render_stats_html display_mode the_stats = Ok s ->
      truthy s = true ->
      exists body,
        s = nl 16 ++ dq "<div class='hotlist-section'>" ++ body
        /\ add_section_divider s
           = nl 16 ++ dq "<div class='section-divider hotlist-section'>" ++ body)
  /\ (forall show_new_section report_data s,
         render_new_titles_html show_new_section report_data = Ok s ->
         truthy s = true ->
         exists body,
           s = nl 16 ++ dq "<div class='new-section'>" ++ body
           /\ add_section_divider s
              = nl 16 ++ dq "<div class='section-divider new-section'>" ++ body)
  /\ (forall rss_stats section_title,
         truthy (render_rss_stats_html rss_stats section_title) = true ->
         exists body,
           render_rss_stats_html rss_stats section_title
           = nl 16 ++ dq "<div class='rss-section'>" ++ body
           /\ add_section_divider (render_rss_stats_html rss_stats section_title)
              = nl 16 ++ dq "<div class='section-divider rss-section'>" ++ body)
  /\ (forall data,
         truthy (render_standalone_html data) = true ->
         exists body,
           render_standalone_html data
           = nl 16 ++ dq "<div class='standalone-section'>" ++ body
           /\ add_section_divider (render_standalone_html data)
              = nl 16 ++ dq "<div class='section-divider standalone-section'>"
                ++ body).
Proof.
  split; [| split; [| split]].
  - intros display_mode the_stats s H T. unfold render_stats_html in H.
    destruct (for_each _ _ _) as [stats_html |]; unfold bind in H;
      [| discriminate H].
    apply Ok_inj in H. subst s.
    destruct (truthy stats_html); [| discriminate T].
    eexists. split; [reflexivity |].
    change (nl 16 ++ dq "<div class='hotlist-section'>" ++ stats_html
            ++ nl 16 ++ "</div>")
      with (nl 16 ++ dq "<div class='"
            ++ (dq "hotlist-section'>" ++ stats_html ++ nl 16 ++ "</div>")).
    apply add_section_divider_outer_div.
  - intros show_new_section report_data s H T.
    unfold render_new_titles_html in H.
    destruct (show_new_section && nonempty (new_titles report_data)).
    + destruct (for_each _ _ _) as [groups |] eqn:E; unfold bind in H;
        [| discriminate H].
      apply Ok_inj in H. subst s.
      destruct (for_each_extends _ _ _ _ E) as [more ->].
      rewrite !append_assoc.
      eexists. split; [reflexivity |].
      match goal with
      | |- add_section_divider (_ ++ _ ++ ?body) = _ =>
          change (add_section_divider
                    (nl 16 ++ dq "<div class='" ++ (dq "new-section'>" ++ body))
                  = nl 16 ++ dq "<div class='section-divider "
                    ++ (dq "new-section'>" ++ body))
      end.
      apply add_section_divider_outer_div.
    + apply Ok_inj in H. subst s. discriminate T.
  - intros rss_stats section_title. unfold render_rss_stats_html.
    destruct (nonempty rss_stats); [| discriminate].
    destruct (_ =? _)%Z; [discriminate |]. intros _.
    eexists. split; [reflexivity |].
    match goal with
    | |- add_section_divider (_ ++ _ ++ ?body) = _ =>
        change (add_section_divider
                  (nl 16 ++ dq "<div class='" ++ (dq "rss-section'>" ++ body))
                = nl 16 ++ dq "<div class='section-divider "
                  ++ (dq "rss-section'>" ++ body))
    end.
    apply add_section_divider_outer_div.
  - intros data. unfold render_standalone_html.
    destruct data as [d |]; [| discriminate].
    destruct (_ && _); [discriminate |].
    destruct (_ =? _)%Z; [discriminate |]. intros _.
    eexists. split; [reflexivity |].
    match goal with
    | |- add_section_divider (_ ++ _ ++ ?body) = _ =>
        change (add_section_divider
                  (nl 16 ++ dq "<div class='"
                   ++ (dq "standalone-section'>" ++ body))
                = nl 16 ++ dq "<div class='section-divider "
                  ++ (dq "standalone-section'>" ++ body))
    end.
    apply add_section_divider_outer_div.
Qed.

(* --------------------------------------------------------------------- *)
(** ** The region order                                                   *)
(* --------------------------------------------------------------------- *)

Lemma unknown_region_parts (region_contents : RegionContents) (region : string) :
  is_known_region region = false ->
  region_parts region_contents region = [EmptyString]%list.
Proof.
  unfold is_known_region, region_parts, region_contents_get. intros H.
  repeat (apply orb_false_iff in H; destruct H as [H ?]).
  repeat match goal with E : (_ =? _) = false |- _ => rewrite E; clear E end.
  reflexivity.
Qed.

Lemma appended_parts_known (region_contents : RegionContents)
  (region_order : list string) :
  appended_parts region_contents (filter is_known_region region_order)
  = appended_parts region_contents region_order.
Proof.
  unfold appended_parts.
  induction region_order as [| region rest IH]; [reflexivity |].
  cbn [filter flat_map]. rewrite filter_app, <- IH.
  destruct (is_known_region region) eqn:E.
  - cbn [flat_map]. rewrite filter_app. reflexivity.
  - rewrite (unknown_region_parts _ _ E). reflexivity.
Qed.

(** X3.  Names in [region_order] that are not one of the five region kinds are
    ignored: the call returns what it returns for the order without them. *)
Theorem unknown_region_kinds_are_ignored :
  forall w report_data total_titles mode update_info
         (region_order : list string) get_time_func rss_items rss_new_items
         display_mode standalone_data ai_analysis show_new_section,
    render_html_content w report_data total_titles mode update_info
      (Some region_order) get_time_func rss_items rss_new_items display_mode
      standalone_data ai_analysis show_new_section
    = render_html_content w report_data total_titles mode update_info
        (Some (filter is_known_region region_order)) get_time_func rss_items
        rss_new_items display_mode standalone_data ai_analysis
        show_new_section.
Proof.
  intros. unfold render_html_content. cbn [get].
  destruct (render_opening _ _ _ _) as [opening |]; [| reflexivity].
  unfold bind.
  destruct (prepare_region_contents _ _ _ _ _ _ _) as [region_contents |];
    [| reflexivity].
  rewrite !assemble_spec, appended_parts_known. reflexivity.
Qed.

Lemma appended_parts_of_empty_regions (region_order : list string) :
  appended_parts
    (mkRegionContents EmptyString EmptyString (EmptyString, EmptyString)
                      EmptyString EmptyString) region_order
  = nil.
Proof.
  unfold appended_parts.
  induction region_order as [| region rest IH]; [reflexivity |].
  cbn [flat_map]. rewrite filter_app, IH, app_nil_r.
  unfold region_parts, region_contents_get.
  repeat match goal with
         | |- context [if ?c then _ else _] => destruct c
         end; reflexivity.
Qed.

(** X4.  With nothing to show (no keyword group, no new title or the new-titles
    section switched off, no feed entry, an empty standalone region and no
    AI analysis) the call raises nothing and returns the opening followed
    directly by the footer, whatever the region order. *)
Theorem empty_report_is_opening_and_footer :
  forall w report_data total_titles mode update_info region_order
         get_time_func rss_items rss_new_items display_mode standalone_data
         show_new_section,
    stats report_data = nil ->
    show_new_section = false \/ new_titles report_data = nil ->
    get rss_items nil = nil ->
    get rss_new_items nil = nil ->
    render_standalone_html standalone_data = EmptyString ->
    exists opening,
      render_opening report_data total_titles mode (read_clock get_time_func w)
      = Ok opening
      /\ render_html_content w report_data total_titles mode update_info
           region_order get_time_func rss_items rss_new_items display_mode
           standalone_data None show_new_section
         = Ok (opening ++ render_footer update_info).
Proof.
  intros w report_data total_titles mode update_info region_order
         get_time_func rss_items rss_new_items display_mode standalone_data
         show_new_section Hstats Hnew Hrss Hrssnew Hstandalone.
  unfold render_html_content, render_opening, prepare_region_contents,
    render_stats_html, render_new_titles_html.
  rewrite Hstats, Hrss, Hrssnew, Hstandalone.
  assert (Hn : show_new_section && nonempty (new_titles report_data) = false).
  { destruct Hnew as [-> | ->]; [reflexivity | apply andb_false_r]. }
  rewrite Hn. cbn [hot_news_count enumerate for_each bind truthy String.eqb negb
                   nonempty].
  eexists. split; [reflexivity |].
  rewrite assemble_spec, appended_parts_of_empty_regions.
  cbn [written String.concat fst]. rewrite append_nil_r. reflexivity.
Qed.

(* --------------------------------------------------------------------- *)
(** ** Keys read with a subscript                                         *)
(* --------------------------------------------------------------------- *)

Lemma for_each_ok_inv {A : Type} (body : A -> result string) (l : list A) :
  forall out r,
    for_each body l out = Ok r ->
    forall x, In x l -> exists piece, body x = Ok piece.
Proof.
  induction l as [| y l IH]; intros out r H x Hin; [destruct Hin |].
  cbn [for_each] in H. destruct (body y) as [piece |] eqn:E; unfold bind in H;
    [| discriminate H].
  destruct Hin as [<- | Hin]; [exists piece; exact E | eapply IH; eassumption].
Qed.

Lemma enumerate_In {A : Type} (l : list A) : forall start x,
  In x l -> exists i, In (i, x) (enumerate start l).
Proof.
  induction l as [| y l IH]; intros start x Hin; [destruct Hin |].
  destruct Hin as [<- | Hin].
  - exists start. left. reflexivity.
  - destruct (IH (start + 1)%Z x Hin) as [i Hi]. exists i. right. exact Hi.
Qed.

Lemma render_news_item_inv display_mode j title_data piece :
  render_news_item display_mode (j, title_data) = Ok piece ->
  title_has_required_keys display_mode title_data.
Proof.
  unfold render_news_item, source_or_keyword, title_has_required_keys.
  intros H. split.
  - intros Hnone. rewrite Hnone in H. cbn [subscript] in H.
    destruct (if display_mode =? "keyword" then _ else _); discriminate H.
  - intros ->. cbn [String.eqb Ascii.eqb Bool.eqb] in H.
    intros Hnone. rewrite Hnone in H. discriminate H.
Qed.

Lemma render_word_group_inv display_mode total_count i stat piece :
  render_word_group display_mode total_count (i, stat) = Ok piece ->
  stat_has_required_keys display_mode stat.
Proof.
  unfold render_word_group, stat_has_required_keys. intros H.
  destruct (stat_count stat) as [the_count |]; [| discriminate H].
  destruct (stat_word stat) as [word |]; [| discriminate H].
  destruct (stat_titles stat) as [titles |]; [| discriminate H].
  cbn [subscript] in H. unfold bind at 1 2 3 in H.
  split; [discriminate |]. split; [discriminate |].
  exists titles. split; [reflexivity |].
  destruct (for_each _ _ _) as [group |] eqn:E; [| discriminate H].
  apply Forall_forall. intros title_data Hin.
  destruct (enumerate_In titles 1%Z title_data Hin) as [j Hj].
  destruct (for_each_ok_inv _ _ _ _ E _ Hj) as [p Hp].
  eapply render_news_item_inv. exact Hp.
Qed.

Lemma render_stats_html_inv display_mode the_stats s :
  render_stats_html display_mode the_stats = Ok s ->
  Forall (stat_has_required_keys display_mode) the_stats.
Proof.
  unfold render_stats_html. intros H.
  destruct (for_each _ _ _) as [stats_html |] eqn:E; [| discriminate H].
  apply Forall_forall. intros stat Hin.
  destruct (enumerate_In the_stats 1%Z stat Hin) as [i Hi].
  destruct (for_each_ok_inv _ _ _ _ E _ Hi) as [p Hp].
  eapply render_word_group_inv. exact Hp.
Qed.

Lemma render_new_source_group_inv source_data piece :
  render_new_source_group source_data = Ok piece ->
  source_has_required_keys source_data.
Proof.
  unfold render_new_source_group, source_has_required_keys. intros H.
  destruct (src_source_name source_data) as [source |]; [| discriminate H].
  destruct (src_titles source_data) as [titles |]; [| discriminate H].
  cbn [subscript] in H. unfold bind at 1 2 in H.
  split; [discriminate |]. exists titles. split; [reflexivity |].
  destruct (for_each _ _ _) as [group |] eqn:E; [| discriminate H].
  apply Forall_forall. intros title_data Hin.
  destruct (enumerate_In titles 1%Z title_data Hin) as [idx Hidx].
  destruct (for_each_ok_inv _ _ _ _ E _ Hidx) as [p Hp].
  unfold render_new_item in Hp. intros Hnone. rewrite Hnone in Hp.
  discriminate Hp.
Qed.

Lemma render_new_titles_html_inv show_new_section report_data s :
  render_new_titles_html show_new_section report_data = Ok s ->
  show_new_section = true ->
  Forall source_has_required_keys (new_titles report_data).
Proof.
  unfold render_new_titles_html. intros H ->. cbn [andb] in H.
  destruct (new_titles report_data) as [| source_data rest] eqn:En;
    [constructor |].
  cbn [nonempty] in H.
  destruct (for_each _ _ _) as [groups |] eqn:E; [| discriminate H].
  apply Forall_forall. intros x Hin.
  destruct (for_each_ok_inv _ _ _ _ E _ Hin) as [p Hp].
  eapply render_new_source_group_inv. exact Hp.
Qed.

(** X5.  A call that returns a page has found every key it reads with a
    subscript: a keyword group without [count], [word] or [titles], a
    hot-list title without [title] (or, in keyword mode, without
    [source_name]), or, when the new-titles section is shown, a source
    without [source_name] or [titles] or a new title without [title], makes
    the call raise instead. *)
Theorem returned_page_had_all_subscripted_keys :
  forall w report_data total_titles mode update_info region_order
         get_time_func rss_items rss_new_items display_mode standalone_data
         ai_analysis show_new_section html,
    render_html_content w report_data total_titles mode update_info
      region_order get_time_func rss_items rss_new_items display_mode
      standalone_data ai_analysis show_new_section = Ok html ->
    report_has_required_keys display_mode show_new_section report_data.
Proof.
  intros w report_data total_titles mode update_info region_order
         get_time_func rss_items rss_new_items display_mode standalone_data
         ai_analysis show_new_section html H.
  unfold render_html_content in H.
  destruct (render_opening _ _ _ _) as [opening |]; unfold bind in H;
    [| discriminate H].
  destruct (prepare_region_contents _ _ _ _ _ _ _) as [region_contents |] eqn:E;
    [| discriminate H].
  unfold prepare_region_contents in E.
  destruct (render_stats_html display_mode (stats report_data))
    as [stats_html |] eqn:Es; unfold bind in E; [| discriminate E].
  destruct (render_new_titles_html show_new_section report_data)
    as [new_titles_html |] eqn:En; [| discriminate E].
  split.
  - eapply render_stats_html_inv. exact Es.
  - eapply render_new_titles_html_inv. exact En.
Qed.

Lemma hot_news_count_missing_titles (the_stats : list Stat) (stat : Stat) :
  In stat the_stats -> stat_titles stat = None ->
  hot_news_count the_stats = Raise (KeyError "titles").
Proof.
  induction the_stats as [| first rest IH]; intros Hin Hnone; [destruct Hin |].
  cbn [hot_news_count]. destruct Hin as [-> | Hin].
  - rewrite Hnone. reflexivity.
  - destruct (stat_titles first); [| reflexivity].
    cbn [subscript]. unfold bind at 1. rewrite (IH Hin Hnone). reflexivity.
Qed.

(** X6.  A keyword group without [titles] anywhere in [stats] makes the call
    raise [KeyError] for [titles], whatever the other arguments: the total
    written in the page header is computed over all groups before any of
    them is rendered. *)
Theorem group_without_titles_raises_KeyError :
  forall w report_data total_titles mode update_info region_order
         get_time_func rss_items rss_new_items display_mode standalone_data
         ai_analysis show_new_section (stat : Stat),
    In stat (stats report_data) ->
    stat_titles stat = None ->
    render_html_content w report_data total_titles mode update_info
      region_order get_time_func rss_items rss_new_items display_mode
      standalone_data ai_analysis show_new_section
    = Raise (KeyError "titles").
Proof.
  intros w report_data total_titles mode update_info region_order
         get_time_func rss_items rss_new_items display_mode standalone_data
         ai_analysis show_new_section stat Hin Hnone.
  unfold render_html_content, render_opening.
  rewrite (hot_news_count_missing_titles _ _ Hin Hnone). reflexivity.
Qed.

(** With the new-titles section switched off the call reads neither
    [new_titles] nor [total_new_count]: any two values of them give the same
    result, even values that would make the section raise. *)
Lemma hidden_new_section_is_not_read :
  forall w the_stats the_failed_ids new_titles1 new_titles2 count1 count2
         total_titles mode update_info region_order get_time_func rss_items
         rss_new_items display_mode standalone_data ai_analysis,
    render_html_content w
      (mkReportData the_stats new_titles1 the_failed_ids count1)
      total_titles mode update_info region_order get_time_func rss_items
      rss_new_items display_mode standalone_data ai_analysis false
    = render_html_content w
        (mkReportData the_stats new_titles2 the_failed_ids count2)
        total_titles mode update_info region_order get_time_func rss_items
        rss_new_items display_mode standalone_data ai_analysis false.
Proof. reflexivity. Qed.

(* --------------------------------------------------------------------- *)
(** ** The standalone region                                              *)
(* --------------------------------------------------------------------- *)

Lemma sum_by_from {A : Type} (f : A -> Z) (l : list A) : forall a,
  fold_left (fun total x => (total + f x)%Z) l a = (a + sum_by f l)%Z.
Proof.
  unfold sum_by. induction l as [| x l IH]; intros a; cbn [fold_left].
  - lia.
  - rewrite (IH (a + f x)%Z), (IH (0 + f x)%Z). lia.
Qed.

Lemma sum_by_cons {A : Type} (f : A -> Z) (x : A) (l : list A) :
  sum_by f (x :: l) = (f x + sum_by f l)%Z.
Proof. unfold sum_by at 1. cbn [fold_left]. rewrite sum_by_from. lia. Qed.

Lemma sum_by_nonneg {A : Type} (f : A -> Z) (l : list A) :
  (forall x, 0 <= f x)%Z -> (0 <= sum_by f l)%Z.
Proof.
  intros Hf. induction l as [| x l IH]; [reflexivity |].
  rewrite sum_by_cons. specialize (Hf x). lia.
Qed.

Lemma sum_by_zero {A : Type} (f : A -> Z) (l : list A) :
  (forall x, 0 <= f x)%Z ->
  sum_by f l = 0%Z <-> Forall (fun x => f x = 0%Z) l.
Proof.
  intros Hf. induction l as [| x l IH].
  - split; [constructor | reflexivity].
  - rewrite sum_by_cons. pose proof (sum_by_nonneg f l Hf) as Hl.
    pose proof (Hf x) as Hx. split.
    + intros H. constructor; [lia | apply IH; lia].
    + intros H. inversion H as [| ? ? H1 H2]; subst.
      apply IH in H2. lia.
Qed.

Lemma no_items_iff (group : Group) :
  Z.of_nat (List.length (get (group_items group) nil)) = 0%Z
  <-> get (group_items group) nil = nil.
Proof.
  destruct (get (group_items group) nil); cbn [List.length]; split;
    intros H; try reflexivity; try discriminate H; lia.
Qed.

Lemma Forall_no_items (groups : list Group) :
  Forall (fun g => Z.of_nat (List.length (get (group_items g) nil)) = 0%Z) groups
  <-> Forall (fun g => get (group_items g) nil = nil) groups.
Proof.
  split; intros H; eapply Forall_impl; try exact H; intros g Hg;
    apply no_items_iff, Hg.
Qed.

Lemma nl_append_nonempty (n : nat) (s : string) : nl n ++ s <> EmptyString.
Proof. unfold nl. cbn [append]. discriminate. Qed.

(** X7.  The standalone region is empty exactly when there is no item to show:
    no data, or data in which every platform and every feed has no
    [items]. *)
Theorem standalone_region_empty_iff_no_item :
  forall (data : option StandaloneData),
    render_standalone_html data = EmptyString
    <-> match data with
        | None => True
        | Some d =>
            Forall (fun g => get (group_items g) nil = nil)
                   (get (platforms d) nil)
            /\ Forall (fun g => get (group_items g) nil = nil)
                      (get (rss_feeds d) nil)
        end.
Proof.
  intros [d |]; [| split; reflexivity].
  unfold render_standalone_html. cbv zeta.
  set (count_items := fun g : Group =>
                        Z.of_nat (List.length (get (group_items g) nil))).
  set (P := get (platforms d) nil). set (F := get (rss_feeds d) nil).
  assert (Hpos : forall g, (0 <= count_items g)%Z) by (intros g; apply Zle_0_nat).
  pose proof (sum_by_nonneg count_items P Hpos) as Hp.
  pose proof (sum_by_nonneg count_items F Hpos) as Hf.
  assert (HP : sum_by count_items P = 0%Z
               <-> Forall (fun g => get (group_items g) nil = nil) P).
  { rewrite <- Forall_no_items. apply sum_by_zero, Hpos. }
  assert (HF : sum_by count_items F = 0%Z
               <-> Forall (fun g => get (group_items g) nil = nil) F).
  { rewrite <- Forall_no_items. apply sum_by_zero, Hpos. }
  destruct (negb (nonempty P) && negb (nonempty F)) eqn:Eb.
  - split; [intros _ | reflexivity].
    destruct P; [| discriminate Eb]. destruct F; [| discriminate Eb].
    split; constructor.
  - destruct (Z.eqb_spec (sum_by count_items P + sum_by count_items F) 0)
      as [E | E].
    + split; [intros _ | reflexivity]. split; [apply HP | apply HF]; lia.
    + split.
      * intros H. exfalso. revert H. apply nl_append_nonempty.
      * intros [H1 H2]. apply HP in H1. apply HF in H2. lia.
Qed.

(* --------------------------------------------------------------------- *)
(** ** Rank lists                                                         *)
(* --------------------------------------------------------------------- *)

Lemma fold_min_bounds (l : list Z) : forall a,
  (fold_left Z.min l a <= a)%Z
  /\ Forall (fun x => fold_left Z.min l a <= x)%Z l.
Proof.
  induction l as [| x l IH]; intros a; cbn [fold_left].
  - split; [lia | constructor].
  - destruct (IH (Z.min a x)) as [H1 H2]. split; [lia |].
    constructor; [lia | exact H2].
Qed.

Lemma fold_max_bounds (l : list Z) : forall a,
  (a <= fold_left Z.max l a)%Z
  /\ Forall (fun x => x <= fold_left Z.max l a)%Z l.
Proof.
  induction l as [| x l IH]; intros a; cbn [fold_left].
  - split; [lia | constructor].
  - destruct (IH (Z.max a x)) as [H1 H2]. split; [lia |].
    constructor; [lia | exact H2].
Qed.

Lemma fold_min_max_equal (r : Z) (l : list Z) :
  Forall (fun x => x = r) l ->
  fold_left Z.min l r = r /\ fold_left Z.max l r = r.
Proof.
  induction 1 as [| x l -> _ IH]; cbn [fold_left]; [split; reflexivity |].
  rewrite Z.min_id, Z.max_id. exact IH.
Qed.

Lemma min_eq_max_all_equal (r : Z) (l : list Z) :
  fold_left Z.min l r = fold_left Z.max l r -> Forall (fun x => x = r) l.
Proof.
  intros H. destruct (fold_min_bounds l r) as [Hlo Hall_lo].
  destruct (fold_max_bounds l r) as [Hhi Hall_hi].
  rewrite Forall_forall in *. intros x Hin.
  specialize (Hall_lo x Hin). specialize (Hall_hi x Hin). lia.
Qed.

(** X8.  In the hot-list path and in the standalone path the badge shows one
    number exactly when all the ranks of the list are the same number,
    however many times it is listed; otherwise the least rank is below the
    greatest and the badge shows the range. *)
Theorem rank_text_is_one_number_iff_ranks_all_equal :
  forall (item : Item) (r : Z) (others : list Z),
    ranks item = Some (r :: others) ->
    (Forall (fun x => x = r) others ->
     hotlist_rank_text item = str r /\ standalone_rank_text item = str r)
    /\ (~ Forall (fun x => x = r) others ->
        (list_min (r :: others) < list_max (r :: others))%Z
        /\ hotlist_rank_text item
           = str (list_min (r :: others)) ++ "-" ++ str (list_max (r :: others))
        /\ standalone_rank_text item
           = str (list_min (r :: others)) ++ "-"
             ++ str (list_max (r :: others))).
Proof.
  intros item r others Hr. unfold hotlist_rank_text, standalone_rank_text.
  rewrite Hr. cbn [get list_min list_max]. split.
  - intros Hall. destruct (fold_min_max_equal r others Hall) as [-> ->].
    rewrite Z.eqb_refl. split; reflexivity.
  - intros Hnot.
    destruct (Z.eqb_spec (fold_left Z.min others r) (fold_left Z.max others r))
      as [E | E].
    + exfalso. apply Hnot. apply min_eq_max_all_equal, E.
    + destruct (fold_min_bounds others r). destruct (fold_max_bounds others r).
      repeat split; try reflexivity. lia.
Qed.

(** X9.  The standalone path sets the tier with the fixed threshold 10, whatever
    [rank_threshold] the item carries; an item without a rank list falls
    back on its single [rank], shown when it is positive, and has no badge
    otherwise. *)
Theorem standalone_rank_badge_tiers :
  forall (item : Item),
    (forall the_ranks,
        ranks item = Some the_ranks -> the_ranks <> nil ->
        (standalone_rank_class item = "top" <-> (list_min the_ranks <= 3)%Z)
        /\ (standalone_rank_class item = "high"
            <-> (3 < list_min the_ranks <= 10)%Z)
        /\ (standalone_rank_class item = EmptyString
            <-> (10 < list_min the_ranks)%Z)
        /\ standalone_rank_badge item
           = dq "<span class='rank-num " ++ standalone_rank_class item
             ++ dq "'>" ++ standalone_rank_text item ++ "</span>")
    /\ (get (ranks item) nil = nil ->
        ((0 < get (rank item) 0)%Z ->
         standalone_rank_badge item
         = dq "<span class='rank-num "
           ++ (if (get (rank item) 0 <=? 3)%Z then "top"
               else if (get (rank item) 0 <=? 10)%Z then "high"
               else EmptyString)
           ++ dq "'>" ++ str (get (rank item) 0) ++ "</span>")
        /\ ((get (rank item) 0 <= 0)%Z ->
            standalone_rank_badge item = EmptyString)).
Proof.
  intros item. split.
  - intros the_ranks Hr Hne.
    assert (Hn : nonempty the_ranks = true)
      by (destruct the_ranks; [contradiction | reflexivity]).
    split; [| split; [| split]];
      [ | | | unfold standalone_rank_badge; rewrite Hr; cbn [get]; rewrite Hn;
              reflexivity ];
      unfold standalone_rank_class; rewrite Hr; cbn [get];
      destruct (Z.leb_spec (list_min the_ranks) 3);
      destruct (Z.leb_spec (list_min the_ranks) 10);
      split; intros; try lia; try reflexivity; try congruence.
  - intros Hnil. unfold standalone_rank_badge. rewrite Hnil. cbn [nonempty].
    split; intros H.
    + destruct (Z.gtb_spec (get (rank item) 0) 0); [reflexivity | lia].
    + destruct (Z.gtb_spec (get (rank item) 0) 0); [lia | reflexivity].
Qed.

(* --------------------------------------------------------------------- *)
(** ** The time of a hot-list title                                       *)
(* --------------------------------------------------------------------- *)

Lemma contains_char_cons (c a : ascii) (s : string) :
  contains (String c EmptyString) (String a s)
  = if ascii_dec c a then true else contains (String c EmptyString) s.
Proof.
  unfold contains. rewrite find_cons.
  change (prefix (String c EmptyString) (String a s))
    with (if ascii_dec c a then prefix EmptyString s else false).
  destruct (ascii_dec c a).
  - destruct s; reflexivity.
  - destruct (find (String c EmptyString) s); reflexivity.
Qed.

Lemma replace_char_cons (c a : ascii) (s : string) :
  replace (String c EmptyString) EmptyString (String a s)
  = if ascii_dec c a then replace (String c EmptyString) EmptyString s
    else String a (replace (String c EmptyString) EmptyString s).
Proof.
  unfold replace. cbn [replace_from].
  change (prefix (String c EmptyString) (String a s))
    with (if ascii_dec c a then prefix EmptyString s else false).
  destruct (ascii_dec c a); [| reflexivity].
  destruct s; reflexivity.
Qed.

(** Replacing a character by nothing leaves no occurrence of it, and brings
    in no occurrence of another character. *)
Lemma replace_char_removes (c : ascii) (s : string) :
  contains (String c EmptyString)
           (replace (String c EmptyString) EmptyString s) = false.
Proof.
  induction s as [| a s IH]; [reflexivity |].
  rewrite replace_char_cons. destruct (ascii_dec c a) as [E | E]; [exact IH |].
  rewrite contains_char_cons. destruct (ascii_dec c a); [contradiction | exact IH].
Qed.

Lemma replace_char_keeps_absent (c d : ascii) (s : string) :
  contains (String c EmptyString) s = false ->
  contains (String c EmptyString)
           (replace (String d EmptyString) EmptyString s) = false.
Proof.
  induction s as [| a s IH]; intros H; [reflexivity |].
  rewrite contains_char_cons in H. destruct (ascii_dec c a) as [E | E];
    [discriminate H |].
  rewrite replace_char_cons. destruct (ascii_dec d a); [apply IH, H |].
  rewrite contains_char_cons. destruct (ascii_dec c a); [contradiction |].
  apply IH, H.
Qed.

(** X10.  The time shown for a hot-list title holds no square bracket: the element
    is the escaped form of a text from which every bracket of
    [time_display] has been removed. *)
Theorem hotlist_time_has_no_brackets :
  forall (title_data : Item) (time : string),
    time_display title_data = Some time ->
    time <> EmptyString ->
    exists shown,
      hotlist_time_info title_data
      = dq "<span class='time-info'>" ++ html_escape shown ++ "</span>"
      /\ contains "[" shown = false
      /\ contains "]" shown = false.
Proof.
  intros title_data time Ht Hne. unfold hotlist_time_info. rewrite Ht.
  cbn [get].
  assert (T : truthy time = true).
  { unfold truthy. apply negb_true_iff, String.eqb_neq, Hne. }
  rewrite T. eexists. split; [reflexivity |]. split.
  - apply replace_char_keeps_absent, replace_char_removes.
  - apply replace_char_removes.
Qed.

End Rendering.

(* --------------------------------------------------------------------- *)
(** ** The renderer on concrete inputs                                    *)
(* --------------------------------------------------------------------- *)



Example two_parts_one_divider :
  forall region_contents,
    prepare_region_contents example_html_escape example_convert_time
      string example_ai_block example_fromisoformat
      (report_of [item_with_ranks [2; 5]%Z 10]%list) None None "keyword"
      None (Some "Summary") true = Ok region_contents ->
    List.length (appended_parts region_contents ["hotlist"; "ai_analysis"]%list)
    = 2%nat
    /\ dividers_written
         (appended_parts region_contents ["hotlist"; "ai_analysis"]%list)
       = 1%nat.
Proof.
  intros region_contents H. vm_compute in H. apply Ok_inj in H.
  subst region_contents. split; vm_compute; reflexivity.
Qed.

(** Nothing but a failed platform: the error block and the footer, no
    part and no divider. *)
Example failed_platform_only_no_divider :
  forall region_contents,
    prepare_region_contents example_html_escape example_convert_time
      string example_ai_block example_fromisoformat
      (mkReportData nil nil ["zhihu"]%list 0) None None "keyword"
      None None true = Ok region_contents ->
    appended_parts region_contents default_region_order = nil
    /\ dividers_written (appended_parts region_contents default_region_order)
       = 0%nat.
Proof.
  intros region_contents H. vm_compute in H. apply Ok_inj in H.
  subst region_contents. split; reflexivity.
Qed.


Example ranks_2_5_badge :
  hotlist_rank_badge (item_with_ranks [2; 5]%Z 10)
  = dq "<span class='rank-num top'>2-5</span>".
Proof. reflexivity. Qed.

(** First seen at 08-00, last seen at 12-30. *)
Lemma standalone_time_element_witness :
  standalone_time_info example_html_escape example_convert_time
    (item_with_times (Some "08-00") (Some "12-30"))
  = dq "<span class='time-info'>08:00~12:30</span>".
Proof.
  refine (eq_trans
            (proj1 (standalone_time_element example_html_escape
                      example_convert_time
                      (item_with_times (Some "08-00") (Some "12-30")))
                   _ _ _) _).
  - discriminate.
  - discriminate.
  - discriminate.
  - vm_compute. reflexivity.
Defined.

(** C6, the case the code does not have: an item with a last time and no
    first time gets no time element. *)
Lemma last_time_alone_is_not_shown :
  standalone_time_info example_html_escape example_convert_time
    (item_with_times None (Some "12:30"))
  = EmptyString
  /\ standalone_time_info example_html_escape example_convert_time
       (item_with_times None (Some "12:30"))
     <> dq "<span class='time-info'>12:30</span>".
Proof. split; [reflexivity | discriminate]. Qed.

(** A feed item published at 2025-01-07T08:00:00. *)
Lemma feed_time_element_witness :
  feed_time_info example_html_escape example_fromisoformat
    (item_published "2025-01-07T08:00:00")
  = dq "<span class='time-info'>01-07 08:00</span>".
Proof.
  refine (eq_trans
            (proj1 (feed_time_element example_html_escape example_fromisoformat
                      (item_published "2025-01-07T08:00:00")
                      "2025-01-07T08:00:00" eq_refl _)
                   (mkDatetime 2025 1 7 8 0 0) _ _) _).
  - discriminate.
  - vm_compute. reflexivity.
  - vm_compute. reflexivity.
  - vm_compute. reflexivity.
Defined.

Example unparsed_timestamp_shown_as_is :
  feed_time_info example_html_escape example_fromisoformat
    (item_published "Tuesday morning")
  = dq "<span class='time-info'>Tuesday morning</span>".
Proof. reflexivity. Qed.

(** Platform mode, a title with nothing but its [title]. *)
Lemma renders_when_subscripted_keys_present_witness :
  exists html,
    render_html_content example_html_escape example_convert_time string
      example_ai_block example_fromisoformat "<html>" "</html>"
      (world_at 8 5) (report_of [unsourced_item]%list) 1 "daily" None None
      None None None "platform" None None true = Ok html.
Proof.
  apply (renders_when_subscripted_keys_present example_html_escape
           example_convert_time string example_ai_block example_fromisoformat
           "<html>" "</html>" (world_at 8 5) (report_of [unsourced_item]%list)).
  split.
  - repeat constructor; try discriminate.
    exists [unsourced_item]%list. split; [reflexivity |].
    repeat constructor; discriminate.
  - intros _. constructor.
Defined.

(** Two calls within the same minute. *)
Lemma same_arguments_same_minute_same_page_witness :
  render_html_content example_html_escape example_convert_time string
    example_ai_block example_fromisoformat "<html>" "</html>"
    (mkWorld (mkDatetime 2025 1 7 8 5 0))
    (report_of [item_with_ranks [2; 5]%Z 10]%list) 1 "daily" None None None
    None None "keyword" None None true
  = render_html_content example_html_escape example_convert_time string
      example_ai_block example_fromisoformat "<html>" "</html>"
      (mkWorld (mkDatetime 2025 1 7 8 5 30))
      (report_of [item_with_ranks [2; 5]%Z 10]%list) 1 "daily" None None None
      None None "keyword" None None true.
Proof.
  apply same_arguments_same_minute_same_page. reflexivity.
Defined.

(** C10: the same arguments, one minute apart, give two different pages. *)
Lemma one_minute_apart_pages_differ :
  render_html_content example_html_escape example_convert_time string
    example_ai_block example_fromisoformat "<html>" "</html>"
    (world_at 8 5) (report_of [item_with_ranks [2; 5]%Z 10]%list) 1 "daily"
    None None None None None "keyword" None None true
  <> render_html_content example_html_escape example_convert_time string
       example_ai_block example_fromisoformat "<html>" "</html>"
       (world_at 8 6) (report_of [item_with_ranks [2; 5]%Z 10]%list) 1 "daily"
       None None None None None "keyword" None None true.
Proof.
  intros H.
  apply (f_equal (fun r => match r with
                           | Ok page => contains "08:05" page
                           | Raise _ => false
                           end)) in H.
  vm_compute in H. discriminate H.
Qed.

(* --------------------------------------------------------------------- *)
(** ** The export loop                                                    *)
(* --------------------------------------------------------------------- *)

Lemma str_inj (a b : Z) : str a = str b -> a = b.
Proof.
  unfold str. intros H. apply DecimalZ.to_int_inj.
  assert (Hnz : forall z, Z.to_int z <> Decimal.Pos Decimal.Nil
                          /\ Z.to_int z <> Decimal.Neg Decimal.Nil).
  { intros [| p | p]; cbn; split; try discriminate; intros E;
      injection E as E; exact (DecimalPos.Unsigned.to_uint_nonnil p E). }
  destruct (Hnz a) as [Ha1 Ha2]. destruct (Hnz b) as [Hb1 Hb2].
  pose proof (NilZero.isi (Z.to_int a) Ha1 Ha2) as Ia.
  pose proof (NilZero.isi (Z.to_int b) Hb1 Hb2) as Ib.
  rewrite H in Ia. rewrite Ia in Ib. injection Ib. trivial.
Qed.

Lemma append_inj_l (a x y : string) : a ++ x = a ++ y -> x = y.
Proof.
  induction a as [| c a IH]; cbn [append]; intros H; [exact H |].
  injection H as H. apply IH, H.
Qed.

Lemma append_inj_r (s : string) : forall x y, x ++ s = y ++ s -> x = y.
Proof.
  induction x as [| a x IH]; intros y H.
  - destruct y as [| b y]; [reflexivity |].
    apply (f_equal String.length) in H. rewrite !length_append in H.
    cbn [String.length append] in H. lia.
  - destruct y as [| b y].
    + apply (f_equal String.length) in H. rewrite !length_append in H.
      cbn [String.length append] in H. lia.
    + cbn [append] in H. injection H as -> H. f_equal. apply IH, H.
Qed.

Lemma part_name_inj (base : string) (i j : Z) :
  base ++ "_part" ++ str (i + 1) ++ ".png"
  = base ++ "_part" ++ str (j + 1) ++ ".png" -> i = j.
Proof.
  intros H. apply append_inj_l, append_inj_l, append_inj_r, str_inj in H. lia.
Qed.

Lemma enumerate_nth {A : Type} (l : list A) : forall start i,
  nth_error (enumerate start l) i
  = option_map (fun x => ((start + Z.of_nat i)%Z, x)) (nth_error l i).
Proof.
  induction l as [| x l IH]; intros start i.
  - destruct i; reflexivity.
  - destruct i as [| i]; cbn [enumerate nth_error option_map].
    + rewrite Z.add_0_r. reflexivity.
    + rewrite IH. destruct (nth_error l i); cbn [option_map]; [| reflexivity].
      do 2 f_equal. lia.
Qed.

Lemma enumerate_lower {A : Type} (l : list A) : forall start i x,
  In (i, x) (enumerate start l) -> (start <= i)%Z.
Proof.
  induction l as [| y l IH]; intros start i x H; [destruct H |].
  destruct H as [H | H]; [injection H as <- _; lia |].
  apply IH in H. lia.
Qed.

Section ExportProperties.

Variable Image : Type.
Variable html2canvas : Z -> Z -> option Image.

Lemma captureSegments_Some (segments : list Segment) : forall images,
  captureSegments Image html2canvas segments = Some images ->
  List.length images = List.length segments
  /\ forall i s,
      nth_error segments i = Some s ->
      exists image,
        html2canvas (seg_start s) (seg_end s - seg_start s)%Z = Some image
        /\ nth_error images i = Some image.
Proof.
  induction segments as [| t rest IH]; intros images H; cbn [captureSegments] in H.
  - injection H as <-. split; [reflexivity |]. intros [| i] s Hs; discriminate Hs.
  - destruct (html2canvas (seg_start t) (seg_end t - seg_start t)%Z)
      as [image |] eqn:E; [| discriminate H].
    destruct (captureSegments Image html2canvas rest) as [others |];
      [| discriminate H].
    injection H as <-. destruct (IH others eq_refl) as [Hlen Hnth].
    split; [cbn; f_equal; exact Hlen |].
    intros [| i] s Hs; cbn [nth_error] in Hs |- *.
    + injection Hs as <-. exists image. split; [exact E | reflexivity].
    + apply Hnth, Hs.
Qed.

Lemma captureSegments_None (segments : list Segment) :
  captureSegments Image html2canvas segments = None
  <-> exists s, In s segments
                /\ html2canvas (seg_start s) (seg_end s - seg_start s)%Z = None.
Proof.
  induction segments as [| t rest IH]; cbn [captureSegments].
  - split; [discriminate | intros (s & [] & _)].
  - destruct (html2canvas (seg_start t) (seg_end t - seg_start t)%Z)
      as [image |] eqn:E.
    + destruct (captureSegments Image html2canvas rest) as [others |].
      * split; [discriminate |]. intros (s & [<- | Hin] & Hs).
        -- rewrite E in Hs. discriminate Hs.
        -- assert (Hnone : Some others = None)
             by (apply IH; exists s; split; assumption).
           discriminate Hnone.
      * split; [| reflexivity]. intros _.
        destruct (proj1 IH eq_refl) as (s & Hin & Hs).
        exists s. split; [right; exact Hin | exact Hs].
    + split; [| reflexivity]. intros _. exists t. split; [left; reflexivity | exact E].
Qed.

(** X16.  When the capture of any one segment throws, no file at all is offered
    for download, not even for the segments captured before it, and the
    button reports the failure. *)
Theorem failed_capture_downloads_nothing :
  forall (m : Measured) (maxHeight : Z) (now : JsDate) (s : Segment),
    In s (segmentsOf m maxHeight) ->
    html2canvas (seg_start s) (seg_end s - seg_start s)%Z = None ->
    downloads Image (saveAsMultipleImages Image html2canvas m maxHeight now)
    = nil
    /\ buttonText Image (saveAsMultipleImages Image html2canvas m maxHeight now)
       = "保存失敗".
Proof.
  intros m maxHeight now s Hin Hs. unfold saveAsMultipleImages.
  assert (H : captureSegments Image html2canvas (segmentsOf m maxHeight) = None).
  { apply captureSegments_None. exists s. split; assumption. }
  rewrite H. split; reflexivity.
Qed.

(** X17.  When every capture succeeds there is one download per segment, in the
    order of the segments: the one at position [i] (from 0) carries the
    capture of the window of segment [i], from its start over its extent,
    under the base name followed by [_part], the number [i + 1] and
    [.png]. *)
Theorem each_segment_downloaded_as_numbered_part :
  forall (m : Measured) (maxHeight : Z) (now : JsDate),
    (forall s, In s (segmentsOf m maxHeight) ->
               html2canvas (seg_start s) (seg_end s - seg_start s)%Z <> None) ->
    List.length
      (downloads Image (saveAsMultipleImages Image html2canvas m maxHeight now))
    = List.length (segmentsOf m maxHeight)
    /\ forall i s,
        nth_error (segmentsOf m maxHeight) i = Some s ->
        exists image,
          html2canvas (seg_start s) (seg_end s - seg_start s)%Z = Some image
          /\ nth_error
               (downloads Image
                  (saveAsMultipleImages Image html2canvas m maxHeight now)) i
             = Some (baseFilename now ++ "_part" ++ str (Z.of_nat i + 1)
                     ++ ".png", image).
Proof.
  intros m maxHeight now Hall. unfold saveAsMultipleImages.
  destruct (captureSegments Image html2canvas (segmentsOf m maxHeight))
    as [images |] eqn:E.
  - destruct (captureSegments_Some _ _ E) as [Hlen Hnth].
    cbn [downloads]. unfold partDownloads. split.
    + rewrite length_map. rewrite <- Hlen. clear.
      generalize 0%Z. induction images as [| x l IH]; intros k; [reflexivity |].
      cbn. f_equal. apply IH.
    + intros i s Hs. destruct (Hnth i s Hs) as (image & Hc & Hi).
      exists image. split; [exact Hc |].
      rewrite nth_error_map, enumerate_nth, Hi. reflexivity.
  - exfalso. apply captureSegments_None in E. destruct E as (s & Hin & Hs).
    exact (Hall s Hin Hs).
Qed.

(** X18.  The files of one export have pairwise different names. *)
Theorem downloaded_parts_have_distinct_names :
  forall (m : Measured) (maxHeight : Z) (now : JsDate),
    NoDup (map fst (downloads Image
                      (saveAsMultipleImages Image html2canvas m maxHeight now))).
Proof.
  intros m maxHeight now. unfold saveAsMultipleImages.
  destruct (captureSegments Image html2canvas (segmentsOf m maxHeight))
    as [images |]; [| constructor].
  cbn [downloads]. unfold partDownloads. rewrite map_map. cbn [fst].
  generalize 0%Z. induction images as [| x l IH]; intros k; [constructor |].
  cbn [enumerate map]. constructor; [| apply IH].
  intros Hin. apply in_map_iff in Hin. destruct Hin as ([j y] & Hname & Hj).
  cbn [fst] in Hname. apply part_name_inj in Hname. subst j.
  apply enumerate_lower in Hj. lia.
Qed.

End ExportProperties.

(* --------------------------------------------------------------------- *)
(** ** Further runs on concrete inputs                                    *)
(* --------------------------------------------------------------------- *)

Lemma add_section_divider_writes_after_first_class_attr_witness :
  add_section_divider (dq "<p><b class='x'>text</b></p>")
  = take 6 (dq "<p><b class='x'>text</b></p>") ++ class_attr
    ++ "section-divider "
    ++ drop (6 + String.length class_attr) (dq "<p><b class='x'>text</b></p>").
Proof.
  apply (proj1 (add_section_divider_writes_after_first_class_attr
                  (dq "<p><b class='x'>text</b></p>")) 6%nat).
  reflexivity.
Defined.

Example marker_in_inner_element :
  add_section_divider (dq "<p><b class='x'>text</b></p>")
  = dq "<p><b class='section-divider x'>text</b></p>".
Proof. reflexivity. Qed.

Lemma divider_marks_outer_container_of_each_region_witness :
  exists body,
    render_rss_stats_html example_html_escape
      [mkStat (Some "keyword") (Some 1%Z)
              (Some [item_published "2025-01-07T08:00:00"]%list)]%list
      "RSS"
    = nl 16 ++ dq "<div class='rss-section'>" ++ body
    /\ add_section_divider
         (render_rss_stats_html example_html_escape
            [mkStat (Some "keyword") (Some 1%Z)
                    (Some [item_published "2025-01-07T08:00:00"]%list)]%list
            "RSS")
       = nl 16 ++ dq "<div class='section-divider rss-section'>" ++ body.
Proof.
  apply (proj1 (proj2 (proj2 (divider_marks_outer_container_of_each_region
                                example_html_escape example_convert_time
                                example_fromisoformat)))).
  reflexivity.
Defined.

Lemma empty_report_is_opening_and_footer_witness :
  exists opening,
    render_opening example_html_escape "<html>"
      (mkReportData nil nil ["zhihu"]%list 0) 0 "daily"
      (read_clock None (world_at 8 5)) = Ok opening
    /\ render_html_content example_html_escape example_convert_time string
         example_ai_block example_fromisoformat "<html>" "</html>"
         (world_at 8 5) (mkReportData nil nil ["zhihu"]%list 0) 0 "daily" None
         (Some ["rss"; "hotlist"]%list) None (Some nil) None "keyword" None
         None true
       = Ok (opening ++ render_footer "</html>" None).
Proof.
  apply (empty_report_is_opening_and_footer example_html_escape
           example_convert_time string example_ai_block example_fromisoformat
           "<html>" "</html>" (world_at 8 5)
           (mkReportData nil nil ["zhihu"]%list 0)).
  - reflexivity.
  - right. reflexivity.
  - reflexivity.
  - reflexivity.
  - reflexivity.
Defined.

Lemma returned_page_had_all_subscripted_keys_witness :
  report_has_required_keys "keyword" true
    (report_of [item_with_ranks [2; 5]%Z 10]%list).
Proof.
  eapply (returned_page_had_all_subscripted_keys example_html_escape
            example_convert_time string example_ai_block example_fromisoformat
            "<html>" "</html>" (world_at 8 5)
            (report_of [item_with_ranks [2; 5]%Z 10]%list) 1 "daily" None None
            None None None "keyword" None None true).
  vm_compute. reflexivity.
Defined.

Lemma group_without_titles_raises_KeyError_witness :
  render_html_content example_html_escape example_convert_time string
    example_ai_block example_fromisoformat "<html>" "</html>"
    (world_at 8 5)
    (mkReportData [mkStat (Some "first") (Some 1%Z) (Some nil);
                   mkStat (Some "second") (Some 2%Z) None]%list nil nil 0)
    0 "daily" None None None None None "platform" None None false
  = Raise (KeyError "titles").
Proof.
  apply (group_without_titles_raises_KeyError example_html_escape
           example_convert_time string example_ai_block example_fromisoformat
           "<html>" "</html>" (world_at 8 5)
           (mkReportData [mkStat (Some "first") (Some 1%Z) (Some nil);
                          mkStat (Some "second") (Some 2%Z) None]%list nil nil 0)
           0 "daily" None None None None None "platform" None None false
           (mkStat (Some "second") (Some 2%Z) None)).
  - right. left. reflexivity.
  - reflexivity.
Defined.

Lemma standalone_region_empty_iff_no_item_witness :
  render_standalone_html example_html_escape example_convert_time
    example_fromisoformat
    (Some (mkStandaloneData
             (Some [mkGroup (Some "zhihu") None (Some nil)]%list) None))
  = EmptyString.
Proof.
  apply (proj2 (standalone_region_empty_iff_no_item example_html_escape
                  example_convert_time example_fromisoformat
                  (Some (mkStandaloneData
                           (Some [mkGroup (Some "zhihu") None (Some nil)]%list)
                           None)))).
  split; repeat constructor.
Defined.

Lemma rank_text_is_one_number_iff_ranks_all_equal_witness :
  hotlist_rank_text (item_with_ranks [3; 3; 3]%Z 10) = "3"
  /\ standalone_rank_text (item_with_ranks [3; 3; 3]%Z 10) = "3".
Proof.
  apply (proj1 (rank_text_is_one_number_iff_ranks_all_equal
                  (item_with_ranks [3; 3; 3]%Z 10) 3 [3; 3]%Z eq_refl)).
  repeat constructor.
Defined.

Lemma standalone_rank_badge_tiers_witness :
  standalone_rank_class (item_with_ranks [12; 15]%Z 20) = EmptyString
  <-> (10 < list_min [12; 15])%Z.
Proof.
  apply (proj1 (standalone_rank_badge_tiers (item_with_ranks [12; 15]%Z 20))
               [12; 15]%Z).
  - reflexivity.
  - discriminate.
Defined.

Lemma hotlist_time_has_no_brackets_witness :
  exists shown,
    hotlist_time_info example_html_escape
      (mkItem (Some "Headline") None None None (Some "Source") None None None
              None (Some "[08:00 ~ 12:30]") None None None None None None)
    = dq "<span class='time-info'>" ++ example_html_escape shown ++ "</span>"
    /\ contains "[" shown = false
    /\ contains "]" shown = false.
Proof.
  apply (hotlist_time_has_no_brackets example_html_escape
           (mkItem (Some "Headline") None None None (Some "Source") None None
                   None None (Some "[08:00 ~ 12:30]") None None None None None
                   None)
           "[08:00 ~ 12:30]").
  - reflexivity.
  - discriminate.
Defined.

Example bracketed_time_shown_compact :
  hotlist_time_info example_html_escape
    (mkItem (Some "Headline") None None None (Some "Source") None None None
            None (Some "[08:00 ~ 12:30]") None None None None None None)
  = dq "<span class='time-info'>08:00~12:30</span>".
Proof. reflexivity. Qed.

(** The sample page fits one segment; a capture that always throws, and one
    that never does. *)
Lemma failed_capture_downloads_nothing_witness :
  downloads (Z * Z)
    (saveAsMultipleImages (Z * Z) (capture_above 0) sampleMeasured 3333
       (mkJsDate 2025 0 7 8 5))
  = nil
  /\ buttonText (Z * Z)
       (saveAsMultipleImages (Z * Z) (capture_above 0) sampleMeasured 3333
          (mkJsDate 2025 0 7 8 5))
     = "保存失敗".
Proof.
  apply (failed_capture_downloads_nothing (Z * Z) (capture_above 0)
           sampleMeasured 3333 (mkJsDate 2025 0 7 8 5)
           (mkSegment 0 650 650 true)).
  - left. reflexivity.
  - reflexivity.
Defined.

Lemma each_segment_downloaded_as_numbered_part_witness :
  List.length
    (downloads (Z * Z)
       (saveAsMultipleImages (Z * Z) (capture_above 10000) sampleMeasured 3333
          (mkJsDate 2025 0 7 8 5)))
  = List.length (segmentsOf sampleMeasured 3333).
Proof.
  apply (each_segment_downloaded_as_numbered_part (Z * Z) (capture_above 10000)
           sampleMeasured 3333 (mkJsDate 2025 0 7 8 5)).
  intros s [<- | []]. discriminate.
Defined.

Example sample_page_download :
  downloads (Z * Z)
    (saveAsMultipleImages (Z * Z) (capture_above 10000) sampleMeasured 3333
       (mkJsDate 2025 0 7 8 5))
  = [("TrendRadar_熱點新聞分析_20250107_0805_part1.png", (0, 650)%Z)]%list.
Proof. reflexivity. Qed.

Close Scope string_scope.

(* --------------------------------------------------------------------- *)
(** ** Segmentation on concrete pages                                     *)
(* --------------------------------------------------------------------- *)

(** Header 400, one item of 6000, footer 300, budget 3333. *)
Example tall_item_page_segments :
  computeSegments (pageWithOneItem 400 6000 300) 400 3333 6700
  = [mkSegment 0 6400 6400 true; mkSegment 6400 6700 300 false].
Proof. reflexivity. Qed.

(** The same item on a page whose header and footer have no height. *)
Example tall_item_bare_page_segments :
  computeSegments (pageWithOneItem 0 6000 0) 0 3333 6000
  = [mkSegment 0 6000 6000 true].
Proof. reflexivity. Qed.

(** Header 400, three items of 1500, footer 300, budget 3333. *)
Example three_items_page_segments :
  computeSegments
    [mkElement header_t 0 400 400;
     mkElement news_item_t 400 1900 1500;
     mkElement news_item_t 1900 3400 1500;
     mkElement news_item_t 3400 4900 1500;
     mkElement footer_t 4900 5200 300] 400 3333 5200
  = [mkSegment 0 1900 1900 true; mkSegment 1900 5200 3300 false].
Proof. reflexivity. Qed.

(** C3, the case the code does not have: on the page with a header of 400,
    one item of 6000 and a footer of 300 the item occupies offsets 400 to
    6400; the pass returns two segments, and none of them holds the item
    alone, since the item shares the first one with the header. *)
Lemma tall_first_item_shares_segment_with_header :
  List.length (computeSegments (pageWithOneItem 400 6000 300) 400 3333 6700)
  = 2%nat
  /\ ~ (exists s,
           In s (computeSegments (pageWithOneItem 400 6000 300) 400 3333 6700)
           /\ seg_start s = 400 /\ seg_end s = 6400).
Proof.
  split; [reflexivity |].
  intros (s & Hin & Hs & _). cbn in Hin.
  destruct Hin as [<- | [<- | []]]; cbn in Hs; discriminate Hs.
Qed.

(* --------------------------------------------------------------------- *)
(** ** Segmentation: the loop invariant                                   *)
(* --------------------------------------------------------------------- *)

Lemma last_cons {A : Type} (rest : list A) : forall a d,
  last (a :: rest) d = last rest a.
Proof.
  induction rest as [| c rest IH]; intros a d; [reflexivity |].
  change (last (a :: c :: rest) d) with (last (c :: rest) d).
  rewrite (IH c d), (IH c a). reflexivity.
Qed.

Lemma stacked_In y elements e :
  stacked y elements -> In e elements -> y <= el_top e /\ el_top e <= el_bottom e.
Proof.
  revert y. induction elements as [| a rest IH]; intros y Hst Hin.
  - destruct Hin.
  - destruct Hst as (Hy & Ha & Hrest). destruct Hin as [-> | Hin].
    + split; assumption.
    + destruct (IH _ Hrest Hin) as [H1 H2]. split; lia.
Qed.

Lemma stacked_weaken y y' elements :
  y' <= y -> stacked y elements -> stacked y' elements.
Proof.
  destruct elements as [| a rest]; simpl; intros Hle H; [exact I |].
  destruct H as (H1 & H2 & H3). repeat split; try assumption; lia.
Qed.

Lemma stacked_app y l1 l2 first :
  el_bottom first <= y ->
  stacked y (l1 ++ l2) ->
  stacked y l1 /\ stacked (el_bottom (last l1 first)) l2.
Proof.
  revert y first. induction l1 as [| a l1 IH]; intros y first Hf Hst.
  - simpl. split; [exact I |]. eapply stacked_weaken; eassumption.
  - cbn [app stacked] in Hst |- *. destruct Hst as (H1 & H2 & H3).
    destruct (IH (el_bottom a) a (Z.le_refl _) H3) as [Ha Hb].
    repeat split; try assumption.
    rewrite last_cons. exact Hb.
Qed.

(** Two blocks of a stacked list: the bottom edge of one never lies
    strictly inside the other. *)
Lemma stacked_bottom_not_inside y elements e e' :
  stacked y elements -> In e elements -> In e' elements ->
  ~ cuts (el_bottom e') e.
Proof.
  unfold cuts. revert y. induction elements as [| a rest IH]; intros y Hst He He'.
  - destruct He.
  - destruct Hst as (Hy & Ha & Hrest).
    destruct He as [-> | He], He' as [-> | He'].
    + lia.
    + destruct (stacked_In _ _ _ Hrest He'). lia.
    + destruct (stacked_In _ _ _ Hrest He). lia.
    + eapply IH; eassumption.
Qed.

Lemma tiles_snoc a segments s :
  tiles a segments (seg_start s) -> seg_start s < seg_end s ->
  tiles a (segments ++ [s]) (seg_end s).
Proof.
  revert a. induction segments as [| t rest IH]; simpl; intros a H Hlt.
  - repeat split; congruence.
  - destruct H as (H1 & H2 & H3). repeat split; auto.
Qed.

Section LoopInvariant.

Variables maxHeight headerHeight : Z.
Variable safe : Z -> Prop.

Hypothesis headerHeight_nonneg : 0 <= headerHeight.

Lemma segmentStep_inv previous element state :
  loopInv safe previous state ->
  el_bottom previous <= el_bottom element ->
  safe (el_bottom previous) ->
  loopInv safe element (segmentStep maxHeight headerHeight previous element state).
Proof.
  destruct state as [cur segs]. unfold loopInv, segmentStep.
  intros (Hh & Hle & Ht & Hs & Hall) Hmono Hsafe.
  destruct ((el_bottom element - seg_start cur >? maxHeight)
            && (seg_height cur >? headerHeight)) eqn:Hc; cbn.
  - apply andb_true_iff in Hc. destruct Hc as [_ Hc]. apply Z.gtb_lt in Hc.
    repeat split; try lia; try assumption.
    + apply (tiles_snoc 0 segs
               (mkSegment (seg_start cur) (el_bottom previous) (seg_height cur)
                          (seg_includeHeader cur))); cbn; [assumption | lia].
    + apply Forall_app. split; [assumption |].
      constructor; [cbn; split; assumption | constructor].
  - repeat split; try lia; assumption.
Qed.

Lemma segmentLoop_inv rest : forall previous state,
  loopInv safe previous state ->
  stacked (el_bottom previous) rest ->
  safe (el_bottom previous) ->
  Forall (fun e => safe (el_bottom e)) rest ->
  loopInv safe (last rest previous)
          (segmentLoop maxHeight headerHeight previous rest state).
Proof.
  induction rest as [| e rest IH]; intros previous state Hinv Hst Hsafe Hall.
  - exact Hinv.
  - destruct Hst as (H1 & H2 & H3). inversion Hall as [| ? ? He Hrest]; subst.
    rewrite last_cons.
    cbn [segmentLoop]. apply IH; try assumption.
    apply segmentStep_inv; [assumption | lia | assumption].
Qed.

Lemma closeLast_inv previous state offsetHeight :
  loopInv safe previous state ->
  offsetHeight = el_bottom previous ->
  safe offsetHeight ->
  tiles 0 (closeLast offsetHeight state) offsetHeight
  /\ Forall (fun s => safe (seg_start s) /\ safe (seg_end s))
            (closeLast offsetHeight state).
Proof.
  destruct state as [cur segs]. unfold loopInv, closeLast.
  intros (Hh & Hle & Ht & Hs & Hall) -> Hsafe.
  destruct (seg_height cur >? 0) eqn:Hc.
  - apply Z.gtb_lt in Hc. split.
    + apply (tiles_snoc 0 segs
               (mkSegment (seg_start cur) (el_bottom previous) (seg_height cur)
                          (seg_includeHeader cur))); cbn; [assumption | lia].
    + apply Forall_app. split; [assumption |].
      constructor; [cbn; split; assumption | constructor].
  - rewrite Z.gtb_ltb in Hc. apply Z.ltb_ge in Hc.
    replace (el_bottom previous) with (seg_start cur) by lia.
    split; assumption.
Qed.

End LoopInvariant.

Lemma initial_loopInv (safe : Z -> Prop) headerHeight :
  0 <= headerHeight -> safe 0 ->
  loopInv safe (mkElement header_t 0 headerHeight headerHeight)
          (mkSegment 0 0 headerHeight true, []).
Proof.
  intros Hh Hs. cbn. repeat split; try lia; try assumption. constructor.
Qed.

(** C2.  For blocks measured one under the other (the header first, at
    offset 0, the footer last, every block with [top <= bottom]) and any
    budget [maxHeight], the segments computed by [saveAsMultipleImages] are
    contiguous and non-overlapping (each is non-empty and starts where the
    one before ends), the first starts at 0, the last ends at the full
    height of the document, and no segment boundary lies strictly inside any
    block, whatever the block's height. *)
Theorem segments_tile_document_and_cut_no_block :
  forall (headerHeight : Z) (body : list Element) (footer : Element)
         (maxHeight : Z),
    stacked 0 (mkElement header_t 0 headerHeight headerHeight
               :: body ++ [footer]) ->
    tiles 0
          (computeSegments (mkElement header_t 0 headerHeight headerHeight
                            :: body ++ [footer])
                           headerHeight maxHeight (el_bottom footer))
          (el_bottom footer)
    /\ forall e s,
        In e (mkElement header_t 0 headerHeight headerHeight :: body ++ [footer]) ->
        In s (computeSegments (mkElement header_t 0 headerHeight headerHeight
                               :: body ++ [footer])
                              headerHeight maxHeight (el_bottom footer)) ->
        ~ cuts (seg_start s) e /\ ~ cuts (seg_end s) e.
Proof.
  intros headerHeight body footer maxHeight Hst.
  set (hdr := mkElement header_t 0 headerHeight headerHeight) in *.
  set (elements := hdr :: body ++ [footer]) in *.
  set (safe := fun y => forall e, In e elements -> ~ cuts y e).
  assert (Hh : 0 <= headerHeight) by (destruct Hst as (_ & H & _); exact H).
  assert (Hsafe0 : safe 0).
  { intros e He. destruct (stacked_In _ _ _ Hst He). unfold cuts. lia. }
  assert (Hsafeb : forall e', In e' elements -> safe (el_bottom e')).
  { intros e' He' e He. eapply stacked_bottom_not_inside; eassumption. }
  assert (Hlast : last (body ++ [footer]) hdr = footer) by apply last_last.
  pose proof (segmentLoop_inv maxHeight headerHeight safe Hh (body ++ [footer])
                hdr _ (initial_loopInv safe headerHeight Hh Hsafe0)) as Hloop.
  rewrite Hlast in Hloop.
  assert (Hinv : loopInv safe footer
                   (segmentLoop maxHeight headerHeight hdr (body ++ [footer])
                      (mkSegment 0 0 headerHeight true, []))).
  { apply Hloop.
    - destruct Hst as (_ & _ & H). exact H.
    - apply Hsafeb. left. reflexivity.
    - apply Forall_forall. intros e He. apply Hsafeb. right. exact He. }
  destruct (closeLast_inv safe footer _ (el_bottom footer) Hinv eq_refl)
    as [Htiles Hall].
  { apply Hsafeb. right. apply in_or_app. right. left. reflexivity. }
  split; [exact Htiles |].
  intros e s He Hs. unfold elements in Hs. cbn [computeSegments] in Hs.
  rewrite Forall_forall in Hall. destruct (Hall s Hs) as [H1 H2].
  split; [apply H1 | apply H2]; exact He.
Qed.

Lemma segments_tile_document_and_cut_no_block_witness :
  stacked 0 (mkElement header_t 0 400 400
             :: [mkElement news_item_t 400 1900 1500;
                 mkElement news_item_t 1900 3400 1500;
                 mkElement news_item_t 3400 4900 1500]
             ++ [mkElement footer_t 4900 5200 300])
  /\ tiles 0
       (computeSegments (mkElement header_t 0 400 400
                         :: [mkElement news_item_t 400 1900 1500;
                             mkElement news_item_t 1900 3400 1500;
                             mkElement news_item_t 3400 4900 1500]
                         ++ [mkElement footer_t 4900 5200 300])
                        400 3333 5200)
       5200.
Proof.
  assert (H : stacked 0 (mkElement header_t 0 400 400
             :: [mkElement news_item_t 400 1900 1500;
                 mkElement news_item_t 1900 3400 1500;
                 mkElement news_item_t 3400 4900 1500]
             ++ [mkElement footer_t 4900 5200 300])).
  { cbn. repeat split; lia. }
  split; [exact H |].
  exact (proj1 (segments_tile_document_and_cut_no_block
                  400 _ (mkElement footer_t 4900 5200 300) 3333 H)).
Defined.

(* --------------------------------------------------------------------- *)
(** ** Segmentation: blocks taller than the budget                        *)
(* --------------------------------------------------------------------- *)

Lemma segmentLoop_app maxHeight headerHeight l1 : forall previous l2 state,
  segmentLoop maxHeight headerHeight previous (l1 ++ l2) state
  = segmentLoop maxHeight headerHeight (last l1 previous) l2
      (segmentLoop maxHeight headerHeight previous l1 state).
Proof.
  induction l1 as [| a l1 IH]; intros previous l2 state; [reflexivity |].
  rewrite last_cons. cbn [app segmentLoop]. apply IH.
Qed.

Lemma segmentStep_grows maxHeight headerHeight previous element state :
  exists more,
    snd (segmentStep maxHeight headerHeight previous element state)
    = snd state ++ more.
Proof.
  destruct state as [cur segs]. unfold segmentStep.
  destruct (_ && _); cbn.
  - eexists. reflexivity.
  - exists []. symmetry. apply app_nil_r.
Qed.

Lemma segmentLoop_grows maxHeight headerHeight rest : forall previous state,
  exists more,
    snd (segmentLoop maxHeight headerHeight previous rest state)
    = snd state ++ more.
Proof.
  induction rest as [| e rest IH]; intros previous state.
  - exists []. symmetry. apply app_nil_r.
  - cbn [segmentLoop].
    destruct (IH e (segmentStep maxHeight headerHeight previous e state))
      as [more1 H1].
    destruct (segmentStep_grows maxHeight headerHeight previous e state)
      as [more2 H2].
    exists (more2 ++ more1). rewrite H1, H2. symmetry. apply app_assoc.
Qed.

Lemma closeLast_grows offsetHeight state s :
  In s (snd state) -> In s (closeLast offsetHeight state).
Proof.
  destruct state as [cur segs]. unfold closeLast. cbn. intros H.
  destruct (_ >? _); [apply in_or_app; left |]; exact H.
Qed.

Lemma closeLast_safe (safe : Z -> Prop) previous state offsetHeight :
  loopInv safe previous state -> safe offsetHeight ->
  Forall (fun s => safe (seg_start s) /\ safe (seg_end s))
         (closeLast offsetHeight state).
Proof.
  destruct state as [cur segs]. unfold loopInv, closeLast.
  intros (_ & _ & _ & Hs & Hall) Hsafe.
  destruct (_ >? _); [| exact Hall].
  apply Forall_app. split; [exact Hall |].
  constructor; [cbn; split; assumption | constructor].
Qed.

Lemma segmentStep_start_le_top safe maxHeight headerHeight previous e state :
  loopInv safe previous state ->
  el_bottom previous <= el_top e ->
  seg_start (fst (segmentStep maxHeight headerHeight previous e state))
  <= el_top e.
Proof.
  destruct state as [cur segs]. unfold loopInv, segmentStep.
  intros (_ & Hle & _) Hpe. destruct (_ && _); cbn; lia.
Qed.

Lemma segmentStep_splits maxHeight headerHeight previous e cur segs :
  maxHeight < el_bottom e - seg_start cur ->
  headerHeight < seg_height cur ->
  segmentStep maxHeight headerHeight previous e (cur, segs)
  = (mkSegment (el_bottom previous) 0 (el_bottom e - el_bottom previous) false,
     segs ++ [mkSegment (seg_start cur) (el_bottom previous) (seg_height cur)
                        (seg_includeHeader cur)]).
Proof.
  intros H1 H2. unfold segmentStep.
  replace (el_bottom e - seg_start cur >? maxHeight) with true
    by (symmetry; apply Z.gtb_lt; lia).
  replace (seg_height cur >? headerHeight) with true
    by (symmetry; apply Z.gtb_lt; lia).
  reflexivity.
Qed.


Lemma stacked_last_ge y elements : forall d,
  y <= el_bottom d -> stacked y elements -> y <= el_bottom (last elements d).
Proof.
  revert y. induction elements as [| a rest IH]; intros y d Hd Hst.
  - exact Hd.
  - destruct Hst as (H1 & H2 & H3). rewrite last_cons.
    pose proof (IH (el_bottom a) a (Z.le_refl _) H3). lia.
Qed.

Lemma stacked_bottom_le_last y elements : forall d e,
  stacked y elements -> In e elements ->
  el_bottom e <= el_bottom (last elements d).
Proof.
  revert y. induction elements as [| a rest IH]; intros y d e Hst Hin.
  - destruct Hin.
  - destruct Hst as (H1 & H2 & H3). rewrite last_cons.
    destruct Hin as [-> | Hin].
    + apply stacked_last_ge; [apply Z.le_refl | exact H3].
    + eapply IH; eassumption.
Qed.

Lemma segmentLoop_without_split maxHeight headerHeight rest :
  forall previous cur segs,
    seg_start cur = 0 ->
    Forall (fun e => el_bottom e <= maxHeight) rest ->
    rest <> [] ->
    segmentLoop maxHeight headerHeight previous rest (cur, segs)
    = (mkSegment 0 (el_bottom (last rest previous))
                 (el_bottom (last rest previous)) (seg_includeHeader cur),
       segs).
Proof.
  induction rest as [| e rest IH]; intros previous cur segs Hstart Hall Hne;
    [contradiction |].
  inversion Hall as [| ? ? He Hrest]; subst. rewrite last_cons.
  cbn [segmentLoop]. unfold segmentStep. rewrite Hstart, Z.sub_0_r.
  destruct (Z.gtb_spec (el_bottom e) maxHeight) as [G | G]; [lia |].
  cbn [andb]. destruct rest as [| e' rest]; [reflexivity |].
  rewrite (IH e (mkSegment 0 (el_bottom e) (el_bottom e)
                           (seg_includeHeader cur)) segs eq_refl Hrest);
    [reflexivity | discriminate].
Qed.

Lemma segmentStep_keeps maxHeight headerHeight previous e cur segs :
  seg_height cur <= headerHeight ->
  segmentStep maxHeight headerHeight previous e (cur, segs)
  = (mkSegment (seg_start cur) (el_bottom e) (el_bottom e - seg_start cur)
               (seg_includeHeader cur),
     segs).
Proof.
  intros H. unfold segmentStep.
  replace (seg_height cur >? headerHeight) with false
    by (symmetry; rewrite Z.gtb_ltb; apply Z.ltb_ge; lia).
  rewrite andb_false_r. reflexivity.
Qed.

(** The turn of the loop that handles a block reaching more than the budget
    below the start of the running segment: the next running segment opens
    at the bottom edge of the block before when the running one is taller
    than the header, and is the running one extended otherwise. *)
Lemma segmentStep_at_tall_block maxHeight headerHeight previous b cur segs :
  maxHeight < el_bottom b - seg_start cur ->
  exists cur' segs',
    segmentStep maxHeight headerHeight previous b (cur, segs) = (cur', segs')
    /\ seg_start cur'
       = (if seg_height cur >? headerHeight
          then el_bottom previous else seg_start cur)
    /\ seg_height cur' = el_bottom b - seg_start cur'.
Proof.
  intros Htall. destruct (Z.gtb_spec (seg_height cur) headerHeight) as [G | G].
  - rewrite segmentStep_splits by lia.
    eexists. eexists. split; [reflexivity |]. split; reflexivity.
  - rewrite segmentStep_keeps by lia.
    eexists. eexists. split; [reflexivity |]. split; reflexivity.
Qed.

(** C3 (as the code has it).  A block [b] taller than the budget, followed
    by at least one more block.  No segment boundary falls inside [b].
    When the header is no taller than the budget: one segment ends at the
    bottom edge of [b], so none of the blocks after [b] has a part in it,
    and it is taller than the budget.  Where that segment starts is decided
    by the running segment at the moment the loop reaches [b], whose height
    is the distance from its start to the bottom edge of the block before
    [b]: when the running segment is taller than the header, the segment of
    [b] starts at the bottom edge of the block before [b], and then no other
    block of the page has a part in it; when the running segment is no
    taller than the header, [b] joins it.  So the segment of [b] starts at
    the bottom edge of the block before [b] unless what precedes [b] in it
    is no taller than the header.  The first case covers every page on
    which the blocks before [b] go below the header and stay within the
    budget, and every page on which the block just before [b] is taller than
    the header; the second covers a tall block right after the header.  On
    a page whose only block besides the header and the last block is [b],
    the segments are the one from 0 to the bottom edge of [b] and, when the
    last block goes below [b], the one from there to the end of the page;
    so with a header and a last block of no height the one segment is [b]
    itself. *)
Theorem oversized_block_kept_whole_and_closed_after :
  forall (headerHeight : Z) (before : list Element) (b next : Element)
         (after : list Element) (maxHeight offsetHeight : Z),
    stacked 0 (mkElement header_t 0 headerHeight headerHeight
               :: before ++ b :: next :: after) ->
    maxHeight < el_bottom b - el_top b ->
    el_bottom b <= offsetHeight ->
    let header := mkElement header_t 0 headerHeight headerHeight in
    let segments :=
      computeSegments (header :: before ++ b :: next :: after)
                      headerHeight maxHeight offsetHeight in
    let previous := last before header in
    let running := runningSegment maxHeight headerHeight before in
    (forall s, In s segments ->
               ~ cuts (seg_start s) b /\ ~ cuts (seg_end s) b)
    /\ (headerHeight <= maxHeight ->
        (exists s,
            In s segments
            /\ seg_start s <= el_top b
            /\ seg_end s = el_bottom b
            /\ maxHeight < seg_end s - seg_start s
            /\ (forall e, In e (next :: after) -> outside e s)
            /\ seg_height running = el_bottom previous - seg_start running
            /\ (headerHeight < seg_height running ->
                seg_start s = el_bottom previous
                /\ forall e, In e (header :: before ++ next :: after) ->
                             outside e s)
            /\ (seg_height running <= headerHeight ->
                seg_start s = seg_start running)
            /\ (seg_start s = el_bottom previous
                \/ el_bottom previous - seg_start s <= headerHeight)
            /\ (headerHeight < el_bottom previous <= maxHeight ->
                seg_start s = el_bottom previous)
            /\ (forall before' p,
                   before = before' ++ [p] ->
                   headerHeight < el_bottom p - el_top p ->
                   seg_start s = el_bottom p)
            /\ (before = [] -> seg_start s = 0))
        /\ (before = [] -> after = [] ->
            segments
            = mkSegment 0 (el_bottom b) (el_bottom b) true
              :: (if el_bottom next - el_bottom b >? 0
                  then [mkSegment (el_bottom b) offsetHeight
                                  (el_bottom next - el_bottom b) false]
                  else []))).
Proof.
  intros headerHeight before b next after maxHeight offsetHeight
         Hst Htall Hdoc. cbv zeta. unfold runningSegment.
  set (hdr := mkElement header_t 0 headerHeight headerHeight) in *.
  set (elements := hdr :: before ++ b :: next :: after) in *.
  set (st0 := (mkSegment 0 0 headerHeight true, @nil Segment)).
  assert (Hh : 0 <= headerHeight) by (destruct Hst as (_ & H & _); exact H).
  assert (Hb : In b elements).
  { right. apply in_or_app. right. left. reflexivity. }
  set (safe := fun y => ~ cuts y b).
  assert (Hsafe0 : safe 0).
  { unfold safe, cuts. destruct (stacked_In _ _ _ Hst Hb). lia. }
  assert (Hsafeb : forall e', In e' elements -> safe (el_bottom e')).
  { intros e' He'. eapply stacked_bottom_not_inside; eassumption. }
  assert (Hrest : stacked (el_bottom hdr) (before ++ b :: next :: after)).
  { destruct Hst as (_ & _ & H). exact H. }
  assert (Hbot : forall l, (forall e, In e l -> In e elements) ->
                           Forall (fun e => safe (el_bottom e)) l).
  { intros l Hl. apply Forall_forall. intros e He. apply Hsafeb, Hl, He. }
  destruct (stacked_app _ before (b :: next :: after) hdr (Z.le_refl _) Hrest)
    as [Hpre Hsuf].
  set (p := last before hdr) in *.
  destruct Hsuf as (Hpb & Hbb & Hlater).
  assert (Hnb : el_bottom b <= el_bottom next).
  { destruct Hlater as (H1 & H2 & _). lia. }
  assert (Hearlier : forall e, In e (hdr :: before) -> el_bottom e <= el_bottom p).
  { intros e He. unfold p. rewrite <- (last_cons before hdr hdr).
    apply (stacked_bottom_le_last 0 (hdr :: before) hdr e); [| exact He].
    cbn [stacked]. repeat split; [cbn; lia | exact Hh | exact Hpre]. }
  split; [| intros Hfit; split].
  - (* no boundary inside the block *)
    pose proof (segmentLoop_inv maxHeight headerHeight safe Hh
                  (before ++ b :: next :: after) hdr st0
                  (initial_loopInv safe headerHeight Hh Hsafe0) Hrest
                  (Hsafeb hdr (or_introl eq_refl))
                  (Hbot _ (fun e He => or_intror He))) as Hinv.
    assert (Hoff : safe offsetHeight) by (unfold safe, cuts; lia).
    pose proof (closeLast_safe safe _ _ offsetHeight Hinv Hoff) as Hall.
    rewrite Forall_forall in Hall. exact Hall.
  - (* the segment that holds the block *)
    assert (Hinv1 : loopInv safe p
                      (segmentLoop maxHeight headerHeight hdr before st0)).
    { apply segmentLoop_inv; try assumption.
      - apply initial_loopInv; assumption.
      - apply Hsafeb. left. reflexivity.
      - apply Hbot. intros e He. right. apply in_or_app. left. exact He. }
    destruct (segmentLoop maxHeight headerHeight hdr before st0)
      as [cur1 segs1] eqn:E1.
    destruct Hinv1 as (Hh1 & Hle1 & _). cbn [fst].
    destruct (segmentStep_at_tall_block maxHeight headerHeight p b cur1 segs1)
      as (cur2 & segs2 & E2 & Hstart2 & Hh2); [lia |].
    assert (Hle2 : seg_start cur2 <= el_bottom p).
    { rewrite Hstart2. destruct (_ >? _); lia. }
    assert (Hsplit := segmentStep_splits maxHeight headerHeight b next cur2 segs2).
    rewrite Hh2 in Hsplit. specialize (Hsplit ltac:(lia) ltac:(lia)).
    exists (mkSegment (seg_start cur2) (el_bottom b)
                      (el_bottom b - seg_start cur2) (seg_includeHeader cur2)).
    cbn [seg_start seg_end].
    assert (Hgt : headerHeight < seg_height cur1 ->
                  seg_start cur2 = el_bottom p).
    { intros G. rewrite Hstart2.
      destruct (Z.gtb_spec (seg_height cur1) headerHeight); [reflexivity | lia]. }
    assert (Hkeep : seg_height cur1 <= headerHeight ->
                    seg_start cur2 = seg_start cur1).
    { intros G. rewrite Hstart2.
      destruct (Z.gtb_spec (seg_height cur1) headerHeight); [lia | reflexivity]. }
    split; [| split; [| split; [| split; [| split; [| split;
      [| split; [| split; [| split; [| split; [| split]]]]]]]]]].
    + unfold elements. cbn [computeSegments]. apply closeLast_grows.
      rewrite segmentLoop_app. fold st0 p. rewrite E1. cbn [segmentLoop].
      rewrite E2, Hsplit.
      destruct (segmentLoop_grows maxHeight headerHeight after next
                  (mkSegment (el_bottom b) 0 (el_bottom next - el_bottom b) false,
                   segs2 ++ [mkSegment (seg_start cur2) (el_bottom b)
                               (el_bottom b - seg_start cur2)
                               (seg_includeHeader cur2)])) as [more Hmore].
      rewrite Hmore. cbn [snd]. apply in_or_app. left. apply in_or_app.
      right. left. reflexivity.
    + lia.
    + reflexivity.
    + lia.
    + intros e He. right. cbn [seg_end].
      destruct (stacked_In _ _ _ Hlater He) as [H _]. exact H.
    + exact Hh1.
    + intros G. split; [exact (Hgt G) |].
      intros e He. unfold outside. cbn [seg_start seg_end].
      rewrite (Hgt G).
      change (hdr :: before ++ next :: after)
        with ((hdr :: before) ++ next :: after) in He.
      apply in_app_or in He. destruct He as [He | He].
      * left. apply Hearlier, He.
      * right. destruct (stacked_In _ _ _ Hlater He) as [H _]. exact H.
    + exact Hkeep.
    + destruct (Z_lt_le_dec headerHeight (seg_height cur1)) as [G | G].
      * left. exact (Hgt G).
      * right. rewrite (Hkeep G). lia.
    + intros [G1 G2]. apply Hgt.
      assert (Hne : before <> []).
      { intros ->. cbn in G1. lia. }
      assert (Hall : Forall (fun e => el_bottom e <= maxHeight) before).
      { apply Forall_forall. intros e He.
        pose proof (Hearlier e (or_intror He)). lia. }
      unfold st0 in E1.
      rewrite (segmentLoop_without_split maxHeight headerHeight before hdr
                 (mkSegment 0 0 headerHeight true) [] eq_refl Hall Hne) in E1.
      fold p in E1. inversion E1. cbn [seg_height]. lia.
    + intros before' q Heq Hq.
      assert (Hp : p = q) by (unfold p; rewrite Heq; apply last_last).
      rewrite <- Hp in *. apply Hgt.
      assert (Hpre' := Hpre). rewrite Heq in Hpre'.
      destruct (stacked_app _ before' [p] hdr (Z.le_refl _) Hpre')
        as [Hpre0 (Hq1 & Hq2 & _)].
      assert (Hinv0 : loopInv safe (last before' hdr)
                        (segmentLoop maxHeight headerHeight hdr before' st0)).
      { apply segmentLoop_inv; try assumption.
        - apply initial_loopInv; assumption.
        - apply Hsafeb. left. reflexivity.
        - apply Hbot. intros e He. right. apply in_or_app. left.
          rewrite Heq. apply in_or_app. left. exact He. }
      assert (Hstart1 : seg_start cur1 <= el_top p).
      { change cur1 with (fst (cur1, segs1)). rewrite <- E1.
        rewrite Heq, segmentLoop_app. cbn [segmentLoop].
        eapply segmentStep_start_le_top; eassumption. }
      lia.
    + intros Hnil. rewrite Hstart2. rewrite Hnil in E1. cbn [segmentLoop] in E1.
      unfold st0 in E1. inversion E1. cbn [seg_height seg_start].
      rewrite (Z.gtb_ltb headerHeight headerHeight), Z.ltb_irrefl.
      reflexivity.
  - (* the page with one block *)
    intros Hnil1 Hnil2. unfold elements. rewrite Hnil1, Hnil2.
    cbn [app computeSegments segmentLoop].
    assert (Htop : 0 <= el_top b).
    { pose proof (Hearlier hdr (or_introl eq_refl)) as H0.
      change (el_bottom hdr) with headerHeight in H0. lia. }
    rewrite (segmentStep_keeps maxHeight headerHeight hdr b
               (mkSegment 0 0 headerHeight true) []) by (cbn; lia).
    cbn [seg_start seg_includeHeader].
    rewrite (segmentStep_splits maxHeight headerHeight b next
               (mkSegment 0 (el_bottom b) (el_bottom b - 0) true) [])
      by (cbn; lia).
    unfold closeLast. cbn [seg_height seg_start seg_includeHeader app].
    rewrite Z.sub_0_r.
    destruct (el_bottom next - el_bottom b >? 0); reflexivity.
Qed.

(** The page of the single item with a header and a footer of no height:
    one segment, the item itself. *)
Lemma oversized_block_kept_whole_and_closed_after_witness :
  stacked 0 (pageWithOneItem 0 6000 0)
  /\ computeSegments (pageWithOneItem 0 6000 0) 0 3333 6000
     = [mkSegment 0 6000 6000 true].
Proof.
  assert (H : stacked 0 (pageWithOneItem 0 6000 0)).
  { cbn. repeat split; lia. }
  split; [exact H |].
  exact (proj2 (proj2 (oversized_block_kept_whole_and_closed_after
                         0 [] (mkElement news_item_t 0 6000 6000)
                         (mkElement footer_t 6000 6000 0) [] 3333 6000
                         H ltac:(cbn; lia) ltac:(cbn; lia))
                      ltac:(lia))
               eq_refl eq_refl).
Defined.

(** A tall item after an ordinary one: header 400, an item of 1500, the
    tall item of 6000, the footer of 300, budget 3333. *)
Example tall_item_after_ordinary_item_segments :
  computeSegments
    [mkElement header_t 0 400 400;
     mkElement news_item_t 400 1900 1500;
     mkElement news_item_t 1900 7900 6000;
     mkElement footer_t 7900 8200 300] 400 3333 8200
  = [mkSegment 0 1900 1900 true; mkSegment 1900 7900 6000 false;
     mkSegment 7900 8200 300 false].
Proof. reflexivity. Qed.

(** A tall item after the header part of its keyword group: header 400, a
    group header of 50, the item of 6000, the footer of 300. *)
Example tall_item_after_group_header_segments :
  computeSegments
    [mkElement header_t 0 400 400;
     mkElement word_header_t 400 450 50;
     mkElement news_item_t 450 6450 6000;
     mkElement footer_t 6450 6750 300] 400 3333 6750
  = [mkSegment 0 450 450 true; mkSegment 450 6450 6000 false;
     mkSegment 6450 6750 300 false].
Proof. reflexivity. Qed.

(** A tall item after a short block that opened a segment of its own:
    header 400, an item of 3000, an item of 100, the tall item of 6000, the
    footer of 300.  The short item and the tall one share a segment. *)
Example tall_item_after_short_segment_opener :
  computeSegments
    [mkElement header_t 0 400 400;
     mkElement news_item_t 400 3400 3000;
     mkElement news_item_t 3400 3500 100;
     mkElement news_item_t 3500 9500 6000;
     mkElement footer_t 9500 9800 300] 400 3333 9800
  = [mkSegment 0 3400 3400 true; mkSegment 3400 9500 6100 false;
     mkSegment 9500 9800 300 false].
Proof. reflexivity. Qed.

(* --------------------------------------------------------------------- *)
(** ** Segmentation: further properties of the loop                       *)
(* --------------------------------------------------------------------- *)

Lemma nth_error_snoc {A : Type} (l : list A) (x : A) (i : nat) (y : A) :
  nth_error (l ++ [x]) i = Some y ->
  nth_error l i = Some y \/ (i = List.length l /\ y = x).
Proof.
  revert i. induction l as [| a l IH]; intros i H.
  - destruct i as [| i]; cbn in H.
    + right. split; [reflexivity | congruence].
    + destruct i; discriminate H.
  - destruct i as [| i]; cbn in H |- *.
    + left. exact H.
    + destruct (IH i H) as [H1 | [H1 H2]]; [left | right]; auto.
Qed.

Lemma segmentLoop_includeHeader maxHeight headerHeight rest :
  forall previous cur segs,
    (forall i s, nth_error segs i = Some s ->
                 seg_includeHeader s = (i =? 0)%nat) ->
    seg_includeHeader cur = (List.length segs =? 0)%nat ->
    (forall i s,
        nth_error (snd (segmentLoop maxHeight headerHeight previous rest
                          (cur, segs))) i = Some s ->
        seg_includeHeader s = (i =? 0)%nat)
    /\ seg_includeHeader
         (fst (segmentLoop maxHeight headerHeight previous rest (cur, segs)))
       = (List.length (snd (segmentLoop maxHeight headerHeight previous rest
                         (cur, segs))) =? 0)%nat.
Proof.
  induction rest as [| e rest IH]; intros previous cur segs Hsegs Hcur.
  - split; assumption.
  - cbn [segmentLoop]. unfold segmentStep.
    destruct ((el_bottom e - seg_start cur >? maxHeight)
              && (seg_height cur >? headerHeight)).
    + apply IH.
      * intros i s H. apply nth_error_snoc in H.
        destruct H as [H | [-> ->]]; [apply Hsegs, H | exact Hcur].
      * cbn. rewrite length_app. cbn.
        destruct (List.length segs + 1)%nat eqn:E; [lia | reflexivity].
    + apply IH; [exact Hsegs | exact Hcur].
Qed.

(** X11.  Only the first segment is flagged as holding the header. *)
Theorem only_first_segment_includes_header :
  forall (elements : list Element) (headerHeight maxHeight offsetHeight : Z)
         (i : nat) (s : Segment),
    nth_error (computeSegments elements headerHeight maxHeight offsetHeight) i
    = Some s ->
    seg_includeHeader s = (i =? 0)%nat.
Proof.
  intros elements headerHeight maxHeight offsetHeight i s H.
  destruct elements as [| first rest]; [destruct i; discriminate H |].
  cbn [computeSegments] in H.
  destruct (segmentLoop_includeHeader maxHeight headerHeight rest first
              (mkSegment 0 0 headerHeight true) [])
    as [Hsegs Hcur].
  - intros j t Hj. destruct j; discriminate Hj.
  - reflexivity.
  - destruct (segmentLoop maxHeight headerHeight first rest
                (mkSegment 0 0 headerHeight true, [])) as [cur segs].
    cbn [fst snd] in Hsegs, Hcur. unfold closeLast in H.
    destruct (seg_height cur >? 0); [| apply Hsegs, H].
    apply nth_error_snoc in H.
    destruct H as [H | [-> ->]]; [apply Hsegs, H | exact Hcur].
Qed.

Lemma only_first_segment_includes_header_witness :
  seg_includeHeader (mkSegment 1900 5200 3300 false) = (1 =? 0)%nat.
Proof.
  apply (only_first_segment_includes_header
           [mkElement header_t 0 400 400;
            mkElement news_item_t 400 1900 1500;
            mkElement news_item_t 1900 3400 1500;
            mkElement news_item_t 3400 4900 1500;
            mkElement footer_t 4900 5200 300] 400 3333 5200 1).
  reflexivity.
Defined.

(** What the loop keeps of the running segment and of the closed ones:
    the recorded height is the extent, the extent stays within [bound], and
    every closed segment is taller than the header and was closed because
    the block after it would have passed the budget. *)
Lemma segmentLoop_extents maxHeight headerHeight step elements rest :
  forall before previous cur segs,
    0 <= headerHeight -> 0 <= step ->
    elements = before ++ previous :: rest ->
    steps_at_most step (el_bottom previous) rest ->
    seg_height cur = el_bottom previous - seg_start cur ->
    seg_height cur <= Z.max maxHeight (headerHeight + step) ->
    Forall (fun s =>
              seg_height s = seg_end s - seg_start s
              /\ seg_height s <= Z.max maxHeight (headerHeight + step)
              /\ headerHeight < seg_height s
              /\ exists l1 p e l2,
                  elements = l1 ++ p :: e :: l2
                  /\ seg_end s = el_bottom p
                  /\ maxHeight < el_bottom e - seg_start s) segs ->
    seg_height (fst (segmentLoop maxHeight headerHeight previous rest (cur, segs)))
    = el_bottom (last rest previous)
      - seg_start (fst (segmentLoop maxHeight headerHeight previous rest
                          (cur, segs)))
    /\ seg_height (fst (segmentLoop maxHeight headerHeight previous rest
                          (cur, segs)))
       <= Z.max maxHeight (headerHeight + step)
    /\ Forall (fun s =>
                 seg_height s = seg_end s - seg_start s
                 /\ seg_height s <= Z.max maxHeight (headerHeight + step)
                 /\ headerHeight < seg_height s
                 /\ exists l1 p e l2,
                     elements = l1 ++ p :: e :: l2
                     /\ seg_end s = el_bottom p
                     /\ maxHeight < el_bottom e - seg_start s)
              (snd (segmentLoop maxHeight headerHeight previous rest (cur, segs))).
Proof.
  induction rest as [| e rest IH];
    intros before previous cur segs Hh Hstep Hel Hsteps Hcur Hbound Hsegs.
  - cbn. repeat split; assumption.
  - rewrite last_cons. cbn [segmentLoop]. destruct Hsteps as [He Hsteps].
    unfold segmentStep.
    destruct (Z.gtb_spec (el_bottom e - seg_start cur) maxHeight) as [G1 | G1];
      [destruct (Z.gtb_spec (seg_height cur) headerHeight) as [G2 | G2] |];
      cbn [andb].
    + apply (IH (before ++ [previous])); try assumption.
      * rewrite <- app_assoc. exact Hel.
      * reflexivity.
      * cbn. lia.
      * apply Forall_app. split; [exact Hsegs |].
        constructor; [| constructor]. cbn. repeat split; try lia.
        exists before, previous, e, rest. repeat split; [exact Hel | lia].
    + apply (IH (before ++ [previous])); try assumption.
      * rewrite <- app_assoc. exact Hel.
      * reflexivity.
      * cbn. lia.
    + apply (IH (before ++ [previous])); try assumption.
      * rewrite <- app_assoc. exact Hel.
      * reflexivity.
      * cbn. lia.
Qed.

Lemma steps_at_most_weaken step step' rest : forall y,
  step <= step' -> steps_at_most step y rest -> steps_at_most step' y rest.
Proof.
  induction rest as [| e rest IH]; intros y Hle H; [exact I |].
  destruct H as [H1 H2]. split; [lia | apply IH; assumption].
Qed.

Lemma steps_bound_exists rest : forall y,
  exists step, 0 <= step /\ steps_at_most step y rest.
Proof.
  induction rest as [| e rest IH]; intros y.
  - exists 0. split; [lia | exact I].
  - destruct (IH (el_bottom e)) as (step & Hpos & Hsteps).
    exists (Z.max step (el_bottom e - y)). split; [lia |]. split; [lia |].
    apply (steps_at_most_weaken step); [lia | exact Hsteps].
Qed.

Lemma In_removelast {A : Type} (l : list A) (x : A) :
  In x (removelast l) -> In x l.
Proof.
  induction l as [| a l IH]; [intros [] |].
  cbn [removelast]. destruct l as [| b l]; [intros [] |].
  intros [H | H]; [left; exact H | right; apply IH, H].
Qed.

(** X12.  The extent of every segment.  When each block ends at most [step] below
    the block before it, every segment has the height recorded for it and is
    at most as tall as the larger of the budget and the header plus one
    step; so when the header and any one block together fit the budget, so
    does every segment. *)
Theorem segment_extent_within_budget_or_header_plus_step :
  forall (headerHeight : Z) (rest : list Element) (maxHeight step : Z)
         (s : Segment),
    0 <= headerHeight ->
    0 <= step ->
    steps_at_most step headerHeight rest ->
    In s (computeSegments
            (mkElement header_t 0 headerHeight headerHeight :: rest)
            headerHeight maxHeight
            (el_bottom (last rest (mkElement header_t 0 headerHeight
                                             headerHeight)))) ->
    seg_height s = seg_end s - seg_start s
    /\ seg_end s - seg_start s <= Z.max maxHeight (headerHeight + step).
Proof.
  intros headerHeight rest maxHeight step s Hh Hstep Hsteps Hin.
  set (hdr := mkElement header_t 0 headerHeight headerHeight) in *.
  cbn [computeSegments] in Hin.
  destruct (segmentLoop_extents maxHeight headerHeight step (hdr :: rest) rest
              [] hdr (mkSegment 0 0 headerHeight true) [] Hh Hstep eq_refl
              Hsteps) as (Hcur & Hbound & Hsegs).
  - cbn. lia.
  - cbn. lia.
  - constructor.
  - destruct (segmentLoop maxHeight headerHeight hdr rest
                (mkSegment 0 0 headerHeight true, [])) as [cur segs].
    cbn [fst snd] in Hcur, Hbound, Hsegs. unfold closeLast in Hin.
    rewrite Forall_forall in Hsegs.
    assert (Hclosed : In s segs ->
                      seg_height s = seg_end s - seg_start s
                      /\ seg_end s - seg_start s
                         <= Z.max maxHeight (headerHeight + step)).
    { intros H. destruct (Hsegs s H) as (H1 & H2 & _). split; lia. }
    destruct (seg_height cur >? 0); [| exact (Hclosed Hin)].
    apply in_app_or in Hin. destruct Hin as [Hin | [<- | []]];
      [exact (Hclosed Hin) |].
    cbn. split; lia.
Qed.

Lemma segment_extent_within_budget_or_header_plus_step_witness :
  seg_height (mkSegment 1900 5200 3300 false)
  = seg_end (mkSegment 1900 5200 3300 false)
    - seg_start (mkSegment 1900 5200 3300 false)
  /\ seg_end (mkSegment 1900 5200 3300 false)
     - seg_start (mkSegment 1900 5200 3300 false)
     <= Z.max 3333 (400 + 1500).
Proof.
  apply (segment_extent_within_budget_or_header_plus_step 400
           [mkElement news_item_t 400 1900 1500;
            mkElement news_item_t 1900 3400 1500;
            mkElement news_item_t 3400 4900 1500;
            mkElement footer_t 4900 5200 300] 3333 1500).
  - lia.
  - lia.
  - cbn. repeat split; lia.
  - cbn. right. left. reflexivity.
Defined.

(** X13.  A segment is closed before the end of the page only when it is already
    taller than the header and the block that follows it would take it past
    the budget: every segment but the last ends at the bottom edge of a
    block whose successor ends more than [maxHeight] below the segment's
    start. *)
Theorem segment_closed_only_before_overflowing_block :
  forall (headerHeight : Z) (rest : list Element)
         (maxHeight offsetHeight : Z) (s : Segment),
    0 <= headerHeight ->
    In s (removelast
            (computeSegments
               (mkElement header_t 0 headerHeight headerHeight :: rest)
               headerHeight maxHeight offsetHeight)) ->
    headerHeight < seg_end s - seg_start s
    /\ exists l1 p e l2,
        mkElement header_t 0 headerHeight headerHeight :: rest
        = l1 ++ p :: e :: l2
        /\ seg_end s = el_bottom p
        /\ maxHeight < el_bottom e - seg_start s.
Proof.
  intros headerHeight rest maxHeight offsetHeight s Hh Hin.
  set (hdr := mkElement header_t 0 headerHeight headerHeight) in *.
  cbn [computeSegments] in Hin.
  destruct (steps_bound_exists rest (el_bottom hdr)) as (step & Hstep & Hsteps).
  destruct (segmentLoop_extents maxHeight headerHeight step (hdr :: rest) rest
              [] hdr (mkSegment 0 0 headerHeight true) [] Hh Hstep eq_refl
              Hsteps) as (_ & _ & Hsegs).
  - cbn. lia.
  - cbn. lia.
  - constructor.
  - destruct (segmentLoop maxHeight headerHeight hdr rest
                (mkSegment 0 0 headerHeight true, [])) as [cur segs].
    cbn [snd] in Hsegs. unfold closeLast in Hin.
    rewrite Forall_forall in Hsegs.
    assert (Hs : In s segs).
    { destruct (seg_height cur >? 0).
      - rewrite removelast_last in Hin. exact Hin.
      - apply In_removelast, Hin. }
    destruct (Hsegs s Hs) as (H1 & _ & H3 & H4). split; [lia | exact H4].
Qed.

Lemma segment_closed_only_before_overflowing_block_witness :
  400 < seg_end (mkSegment 0 1900 1900 true)
        - seg_start (mkSegment 0 1900 1900 true)
  /\ exists l1 p e l2,
      mkElement header_t 0 400 400
      :: [mkElement news_item_t 400 1900 1500;
          mkElement news_item_t 1900 3400 1500;
          mkElement news_item_t 3400 4900 1500;
          mkElement footer_t 4900 5200 300]
      = l1 ++ p :: e :: l2
      /\ seg_end (mkSegment 0 1900 1900 true) = el_bottom p
      /\ 3333 < el_bottom e - seg_start (mkSegment 0 1900 1900 true).
Proof.
  apply (segment_closed_only_before_overflowing_block 400
           [mkElement news_item_t 400 1900 1500;
            mkElement news_item_t 1900 3400 1500;
            mkElement news_item_t 3400 4900 1500;
            mkElement footer_t 4900 5200 300] 3333 5200).
  - lia.
  - cbn. left. reflexivity.
Defined.

(** X14.  A page that fits the budget: when no collected block ends below
    [maxHeight] and the footer ends below offset 0, the pass returns one
    segment, from 0 to the height of the container, flagged as holding the
    header. *)
Theorem page_within_budget_is_one_segment :
  forall (m : Measured) (maxHeight : Z),
    Forall (fun e => el_bottom e <= maxHeight) (collectElements m) ->
    0 < el_bottom (footerElement m) ->
    segmentsOf m maxHeight
    = [mkSegment 0 (container_offsetHeight m) (el_bottom (footerElement m))
                 true].
Proof.
  intros m maxHeight Hall Hpos. unfold segmentsOf, collectElements in *.
  inversion Hall as [| ? ? _ Hrest]; subst. cbn [computeSegments].
  set (rest := errorElements m
               ++ flat_map (wordGroupElements (rect_top (containerRect m)))
                           (wordGroups m)
               ++ newSectionElements m ++ [footerElement m]) in *.
  assert (Hlast : last rest (headerElement m) = footerElement m).
  { unfold rest. rewrite !app_assoc. apply last_last. }
  assert (Hne : rest <> []).
  { unfold rest. rewrite !app_assoc. intros H.
    apply app_eq_nil in H. destruct H as [_ H]. discriminate H. }
  rewrite (segmentLoop_without_split maxHeight (header_offsetHeight m) rest
             (headerElement m) (mkSegment 0 0 (header_offsetHeight m) true) []
             eq_refl Hrest Hne).
  rewrite Hlast. unfold closeLast. cbn [seg_height seg_start seg_includeHeader].
  destruct (Z.gtb_spec (el_bottom (footerElement m)) 0) as [G | G]; [| lia].
  reflexivity.
Qed.

Lemma page_within_budget_is_one_segment_witness :
  segmentsOf sampleMeasured 3333 = [mkSegment 0 650 650 true].
Proof.
  apply (page_within_budget_is_one_segment sampleMeasured 3333).
  - cbn. repeat constructor; cbn; lia.
  - cbn. lia.
Defined.

Lemma segmentLoop_tiles_any_order maxHeight headerHeight lowest rest :
  forall previous cur segs,
    0 <= headerHeight ->
    el_bottom previous <= lowest ->
    Forall (fun e => el_bottom e <= lowest) rest ->
    seg_height cur = el_bottom previous - seg_start cur ->
    seg_start cur <= lowest ->
    tiles 0 segs (seg_start cur) ->
    seg_height (fst (segmentLoop maxHeight headerHeight previous rest (cur, segs)))
    = el_bottom (last rest previous)
      - seg_start (fst (segmentLoop maxHeight headerHeight previous rest
                          (cur, segs)))
    /\ seg_start (fst (segmentLoop maxHeight headerHeight previous rest
                         (cur, segs))) <= lowest
    /\ tiles 0 (snd (segmentLoop maxHeight headerHeight previous rest (cur, segs)))
             (seg_start (fst (segmentLoop maxHeight headerHeight previous rest
                                (cur, segs)))).
Proof.
  induction rest as [| e rest IH];
    intros previous cur segs Hh Hprev Hall Hcur Hstart Htiles.
  - cbn. repeat split; assumption.
  - inversion Hall as [| ? ? He Hrest]; subst. rewrite last_cons.
    cbn [segmentLoop]. unfold segmentStep.
    destruct (Z.gtb_spec (el_bottom e - seg_start cur) maxHeight) as [G1 | G1];
      [destruct (Z.gtb_spec (seg_height cur) headerHeight) as [G2 | G2] |];
      cbn [andb]; apply IH; try assumption; cbn; try lia.
    apply (tiles_snoc 0 segs
             (mkSegment (seg_start cur) (el_bottom previous) (seg_height cur)
                        (seg_includeHeader cur))); cbn; [assumption | lia].
Qed.

(** X15.  The segments tile the page whatever the order in which the blocks were
    collected.  The script collects the new-titles section after the keyword
    groups even when it stands above them on the page; as long as no block
    ends below the footer and the container ends with the footer, the
    segments are non-empty, each starts where the one before ends, the first
    starts at 0 and the last ends at the height of the container. *)
Theorem segments_tile_page_in_any_collection_order :
  forall (m : Measured) (maxHeight : Z),
    0 <= header_offsetHeight m ->
    Forall (fun e => el_bottom e <= el_bottom (footerElement m))
           (collectElements m) ->
    container_offsetHeight m = el_bottom (footerElement m) ->
    tiles 0 (segmentsOf m maxHeight) (container_offsetHeight m).
Proof.
  intros m maxHeight Hh Hall Hdoc. unfold segmentsOf, collectElements in *.
  inversion Hall as [| ? ? Hhdr Hrest]; subst. cbn [computeSegments].
  set (rest := errorElements m
               ++ flat_map (wordGroupElements (rect_top (containerRect m)))
                           (wordGroups m)
               ++ newSectionElements m ++ [footerElement m]) in *.
  assert (Hlast : last rest (headerElement m) = footerElement m).
  { unfold rest. rewrite !app_assoc. apply last_last. }
  destruct (segmentLoop_tiles_any_order maxHeight (header_offsetHeight m)
              (el_bottom (footerElement m)) rest (headerElement m)
              (mkSegment 0 0 (header_offsetHeight m) true) [] Hh Hhdr Hrest)
    as (Hcur & Hstart & Htiles).
  - cbn. lia.
  - cbn. cbn in Hhdr. lia.
  - reflexivity.
  - rewrite Hlast in Hcur.
    destruct (segmentLoop maxHeight (header_offsetHeight m) (headerElement m)
                rest (mkSegment 0 0 (header_offsetHeight m) true, []))
      as [cur segs].
    cbn [fst snd] in Hcur, Hstart, Htiles. unfold closeLast. rewrite Hdoc.
    destruct (Z.gtb_spec (seg_height cur) 0) as [G | G].
    + apply (tiles_snoc 0 segs
               (mkSegment (seg_start cur) (el_bottom (footerElement m))
                          (seg_height cur) (seg_includeHeader cur)));
        cbn [seg_start seg_end]; [assumption | lia].
    + replace (el_bottom (footerElement m)) with (seg_start cur) by lia.
      exact Htiles.
Qed.

Lemma segments_tile_page_in_any_collection_order_witness :
  tiles 0 (segmentsOf sampleMeasuredNewFirst 3333)
        (container_offsetHeight sampleMeasuredNewFirst).
Proof.
  apply (segments_tile_page_in_any_collection_order sampleMeasuredNewFirst 3333).
  - cbn. lia.
  - cbn. repeat constructor; cbn; lia.
  - reflexivity.
Defined.

Example new_section_first_page_segments :
  segmentsOf sampleMeasuredNewFirst 3333
  = [mkSegment 0 3300 3300 true; mkSegment 3300 3600 300 false].
Proof. reflexivity. Qed.
